(** * matrix-appservice-discord: the bootstrap module [src/discordas.ts]

    A shallow embedding of [discordas.ts]: the command line front end, the
    registration generator, the log multiplexer installed into the bot SDK,
    the staged start-up of the bridge and the two event handlers it installs
    on the appservice.

    JavaScript values are a small untyped universe ([jsval]) with the
    language's truthiness, [||], [typeof] and member access written out.
    Effects (file system, uuid draws, logging, process exit, calls into the
    collaborating classes) are threaded through a state-and-exception monad
    [M] whose state records, besides the file system, the chronological
    trace of every externally visible operation. *)

From Stdlib Require Import ZArith String Ascii List Bool Lia.
From stdpp Require Import base option gmap strings list pretty.

Local Open Scope string_scope.
Local Open Scope Z_scope.
Local Open Scope list_scope.

(** ** JavaScript values *)

#[warnings="-register-all"]
Inductive jsval : Type :=
| JUndefined
| JNull
| JBool (b : bool)
| JNum (n : Z)
| JNaN
| JStr (s : string)
| JArr (elems : list jsval)
| JObj (props : list (string * jsval)).

(** [ToBoolean]. *)
Definition truthy (v : jsval) : bool :=
  match v with
  | JUndefined | JNull | JNaN => false
  | JBool b => b
  | JNum n => negb (n =? 0)
  | JStr s => negb (String.eqb s EmptyString)
  | JArr _ | JObj _ => true
  end.

(** [a || b]. *)
Definition js_or (a b : jsval) : jsval := if truthy a then a else b.

(** [typeof v]. *)
Definition typeof (v : jsval) : string :=
  match v with
  | JUndefined => "undefined"
  | JBool _ => "boolean"
  | JNum _ | JNaN => "number"
  | JStr _ => "string"
  | JNull | JArr _ | JObj _ => "object"
  end.

(** Own-property lookup in an object literal; a missing key reads as
    [undefined]. *)
Fixpoint lookup_prop (k : string) (props : list (string * jsval)) : jsval :=
  match props with
  | [] => JUndefined
  | (k', v) :: rest => if String.eqb k k' then v else lookup_prop k rest
  end.

(** [new Error(msg)] / [Error(msg)], and the runtime's [TypeError]. *)
Definition Error (msg : string) : jsval :=
  JObj [("name", JStr "Error"); ("message", JStr msg)].

Definition TypeError (msg : string) : jsval :=
  JObj [("name", JStr "TypeError"); ("message", JStr msg)].

(** [String.prototype.includes]. *)
Fixpoint includes (sub s : string) : bool :=
  String.prefix sub s ||
  match s with
  | EmptyString => false
  | String _ rest => includes sub rest
  end.

(** [Array.prototype.includes] for a string needle: some element is that very
    string. *)
Definition arr_includes (sub : string) (elems : list jsval) : bool :=
  existsb (fun v => match v with JStr t => String.eqb t sub | _ => false end) elems.

(** ** [Number::toString]

    [JNum n] stands for the Number nearest to the integer [n]. Below 2^53
    every integer is a Number and prints as its digits. From there on the
    Number is [n] rounded to 53 significant bits (ties to even), and what is
    printed are the fewest significant digits that read back as that Number,
    followed by zeros up to 21 integer digits and in exponent form beyond. *)

(** The Number nearest to a positive integer (as an integer; 2^1024 and
    above stand for [Infinity]). *)
Definition round_double (m : Z) : Z :=
  let b := Z.log2 m in
  if b <=? 52 then m
  else
    let sh := b - 52 in
    let q := Z.shiftr m sh in
    let r := m - Z.shiftl q sh in
    let half := Z.shiftl 1 (sh - 1) in
    let q' := if (half <? r) || ((r =? half) && Z.odd q) then q + 1 else q in
    Z.shiftl q' sh.

Definition decimal_length (m : Z) : Z := Z.of_nat (String.length (pretty m)).

(** The integers [s] and [n] of the language definition: the fewest digits
    [s] such that [s * 10^(n - k)], [k] the length of [s], reads back as the
    Number [x] of [d] integer digits; of two such [s] the closer one, and of
    two equally close the even one. Seventeen digits always suffice. *)
Fixpoint shortest_digits (fuel : nat) (k x d : Z) : Z * Z :=
  match fuel with
  | O => (x, d)
  | S fuel' =>
      let u := 10 ^ (d - k) in
      let lo := x / u in
      let hi := lo + 1 in
      let lo_ok := round_double (lo * u) =? x in
      let hi_ok := round_double (hi * u) =? x in
      let hi_pair := if hi =? 10 ^ k then (1, d + 1) else (hi, d) in
      if lo_ok && hi_ok then
        let below := x - lo * u in
        let above := hi * u - x in
        if below <? above then (lo, d)
        else if above <? below then hi_pair
        else if Z.even lo then (lo, d) else hi_pair
      else if lo_ok then (lo, d)
      else if hi_ok then hi_pair
      else shortest_digits fuel' (k + 1) x d
  end.

Fixpoint zeros (n : nat) : string :=
  match n with
  | O => EmptyString
  | S n' => String "0" (zeros n')
  end.

(** The digits [s] of a Number of [n] integer digits, as printed. *)
Definition format_digits (s n : Z) : string :=
  let ds := pretty s in
  let k := Z.of_nat (String.length ds) in
  if n <=? 21 then ds +:+ zeros (Z.to_nat (n - k))
  else
    match ds with
    | EmptyString => ds
    | String c EmptyString => String c ("e+" +:+ pretty (n - 1))
    | String c rest => String c ("." +:+ rest +:+ "e+" +:+ pretty (n - 1))
    end.

Definition magnitude_to_string (m : Z) : string :=
  if m <? 2 ^ 53 then pretty m
  else
    let x := round_double m in
    if 2 ^ 1024 <=? x then "Infinity"
    else
      let '(s, n) := shortest_digits 17 1 x (decimal_length x) in
      format_digits s n.

Definition number_to_string (n : Z) : string :=
  if n <? 0 then "-" +:+ magnitude_to_string (- n) else magnitude_to_string n.

(** [ToString], as used by template literals. Inside [Array.prototype.join]
    [null] and [undefined] print as the empty string. *)
Fixpoint js_to_string (v : jsval) : string :=
  match v with
  | JUndefined => "undefined"
  | JNull => "null"
  | JBool true => "true"
  | JBool false => "false"
  | JNum n => number_to_string n
  | JNaN => "NaN"
  | JStr s => s
  | JArr elems =>
      let item x := match x with
                    | JUndefined | JNull => EmptyString
                    | _ => js_to_string x
                    end in
      (fix join (l : list jsval) : string :=
         match l with
         | [] => EmptyString
         | [x] => item x
         | x :: rest => item x +:+ "," +:+ join rest
         end) elems
  | JObj _ => "[object Object]"
  end.

(** The double-quote character, for messages that quote an event name. *)
Definition dquote : string := String (ascii_of_nat 34) EmptyString.

(** ** Results of calls into collaborators *)

Inductive Res (A : Type) : Type :=
| Ok (a : A)
| Raise (err : jsval).
Arguments Ok {A} a.
Arguments Raise {A} err.

(** ** Observable operations *)

Inductive Event : Type :=
| EvPrintUsage                                   (* console.log(usage([...])) *)
| EvExit (code : Z)                              (* process.exit(code) *)
| EvExistsSync (path : string)                   (* fs.existsSync *)
| EvReadFile (path : string)                     (* fs.readFileSync *)
| EvWriteFile (path content : string)            (* fs.writeFileSync *)
| EvUuid (token : string)                        (* uuid() *)
| EvLog (level module : string) (parts : list jsval)  (* aLog[level](...parts) *)
| EvLogConfigure (logging : jsval)               (* Log.Configure *)
| EvSetLogger                                    (* LogService.setLogger *)
| EvNewLog (module : string)                     (* new Log(module) *)
| EvNewStore                                     (* new DiscordStore *)
| EvNewAppservice (bindAddress homeserverName homeserverUrl port registration : jsval)
| EvMetricsSet                                   (* MetricPeg.set(...init(...)) *)
| EvStoreInit                                    (* store.init() *)
| EvNewDiscordBot                                (* new DiscordBot *)
| EvOn (event_name : string)                     (* appservice.on(name, handler) *)
| EvBindThirdparty                               (* roomhandler.bindThirdparty() *)
| EvBegin                                        (* appservice.begin() *)
| EvBotInit                                      (* discordbot.init() *)
| EvBotRun                                       (* discordbot.run() *)
| EvOnAliasQuery (roomAlias : string)
| EvCreateRoom (createRoomOpts : jsval)
| EvOnAliasQueried (roomAlias : string) (roomId : jsval)
| EvGetEntriesByMatrixId (roomId : string)
| EvOnEvent (event entries : jsval).

(** ** The world and the effect monad *)

Record Log : Type := { log_module : string }.

Record World : Type := mkWorld {
  fs : gmap string string;        (* path -> file contents *)
  uuid_next : nat;                (* draws made so far from the token source *)
  trace : list Event;             (* chronological, oldest first *)
  logMap : gmap string Log;       (* the closure state of setupLogging *)
}.

Definition set_fs (f : gmap string string) (w : World) : World :=
  mkWorld f (uuid_next w) (trace w) (logMap w).
Definition set_uuid_next (n : nat) (w : World) : World :=
  mkWorld (fs w) n (trace w) (logMap w).
Definition set_trace (t : list Event) (w : World) : World :=
  mkWorld (fs w) (uuid_next w) t (logMap w).
Definition set_logMap (m : gmap string Log) (w : World) : World :=
  mkWorld (fs w) (uuid_next w) (trace w) m.

(** The state of a process that has just started. *)
Definition boot (files : gmap string string) (draws : nat) : World :=
  mkWorld files draws [] ∅.

Inductive Outcome (A : Type) : Type :=
| Ret (a : A)              (* normal completion *)
| Throw (err : jsval)      (* an exception is in flight *)
| Exit (code : Z).         (* process.exit was called *)
Arguments Ret {A} a.
Arguments Throw {A} err.
Arguments Exit {A} code.

Definition M (A : Type) : Type := World → Outcome A * World.

#[global] Instance M_ret : MRet M := λ A a w, (Ret a, w).

#[global] Instance M_bind : MBind M := λ A B k m w,
  match m w with
  | (Ret a, w') => k a w'
  | (Throw e, w') => (Throw e, w')
  | (Exit c, w') => (Exit c, w')
  end.

Definition throw {A} (err : jsval) : M A := λ w, (Throw err, w).

Definition emit (e : Event) : M unit := λ w, (Ret (), set_trace (trace w ++ [e]) w).

(** [process.exit(code)]: nothing after it runs, and no [catch] sees it. *)
Definition process_exit {A} (code : Z) : M A :=
  λ w, (Exit code, set_trace (trace w ++ [EvExit code]) w).

(** [try { body } catch (err) { handler(err) }]. *)
Definition try_catch {A} (body : M A) (handler : jsval → M A) : M A := λ w,
  match body w with
  | (Throw e, w') => handler e w'
  | r => r
  end.

(** A call into a collaborator: it is recorded, then returns or raises. *)
Definition call {A} (e : Event) (r : Res A) : M A :=
  emit e;;
  match r with
  | Ok a => mret a
  | Raise err => throw err
  end.

(** A call on a [Log] instance. *)
Definition log_call (level module : string) (parts : list jsval) : M unit :=
  emit (EvLog level module parts).

(** [const log = new Log("DiscordAS")]. *)
Definition log_error (parts : list jsval) : M unit := log_call "error" "DiscordAS" parts.
Definition log_info (parts : list jsval) : M unit := log_call "info" "DiscordAS" parts.

Definition lift_res {A} (r : Res A) : M A :=
  match r with
  | Ok a => mret a
  | Raise err => throw err
  end.

(** ** File system *)

Definition gets {A} (f : World → A) : M A := λ w, (Ret (f w), w).
Definition modify (f : World → World) : M unit := λ w, (Ret (), f w).

Definition existsSync (path : string) : M bool :=
  emit (EvExistsSync path);;
  gets (λ w, bool_decide (is_Some (fs w !! path))).

Definition readFileSync (path : string) : M string :=
  emit (EvReadFile path);;
  content ← gets (λ w, fs w !! path);
  match content with
  | Some text => mret text
  | None => throw (Error ("ENOENT: no such file or directory, open '" +:+ path +:+ "'"))
  end.

(** The file system of the model is a flat map from paths to contents:
    directories and permissions are not in it. Whether a write is refused
    on opening the path (a missing parent directory, a directory in the
    way, no permission) is therefore given from outside, as the error
    [fs.writeFileSync] raises for the path, if any. A write refused in this
    way changes nothing. *)
Definition writeFileSync (refusal : string → option jsval)
    (path content : string) : M unit :=
  emit (EvWriteFile path content);;
  match refusal path with
  | Some err => throw err
  | None => modify (λ w, set_fs (<[path := content]> (fs w)) w)
  end.

(** ** Command line options

    [commandOptions] declares [config], [url] and [file] as [String], [port]
    as [Number] and the two flags as [Boolean]. An option that was not given
    (or was given without a usable value) is [None]; in the source every use
    of these fields goes through truthiness, where [undefined], [null] and
    [NaN] behave alike. *)

Record CliOpts : Type := mkOpts {
  opt_config : option string;
  opt_url : option string;
  opt_port : option Z;
  opt_file : option string;
  opt_generate_registration : bool;
  opt_help : bool;
}.

Definition str_val (o : option string) : jsval :=
  match o with Some s => JStr s | None => JUndefined end.

Definition num_val (o : option Z) : jsval :=
  match o with Some n => JNum n | None => JUndefined end.

(** [o || dflt] for a string-typed option and a string literal. *)
Definition str_or (o : option string) (dflt : string) : string :=
  match js_or (str_val o) (JStr dflt) with
  | JStr s => s
  | _ => dflt
  end.

(** ** The bridge configuration (class [DiscordBridgeConfig] of [./config]),
    restricted to the fields [discordas.ts] reads. *)

Record DiscordBridgeConfigBridge : Type := mkBridgeCfg {
  domain : jsval;
  homeserverUrl : jsval;
  port : jsval;
  bindAddress : jsval;
}.

Record DiscordBridgeConfigDatabase : Type := mkDatabaseCfg {
  roomStorePath : jsval;
  userStorePath : jsval;
}.

Record DiscordBridgeConfigMetrics : Type := mkMetricsCfg {
  enable : jsval;
}.

Record DiscordBridgeConfig : Type := mkConfig {
  bridge : DiscordBridgeConfigBridge;
  database : DiscordBridgeConfigDatabase;
  metrics : DiscordBridgeConfigMetrics;
  logging : jsval;
}.

(** Modelled from the spec: the constructor of [DiscordBridgeConfig] lives in
    [./config], which is not part of the sources at hand. The spec's data
    model says a configuration is constructed empty, with an optional listen
    port, and populated only by parsing the file. *)
Definition empty_config : DiscordBridgeConfig :=
  mkConfig (mkBridgeCfg JUndefined JUndefined JUndefined JUndefined)
           (mkDatabaseCfg JUndefined JUndefined)
           (mkMetricsCfg (JBool false))
           JUndefined.

(** ** The collaborators of the run path

    What each call into the store, the appservice and the bridge logic does
    when [run] or one of its handlers makes it: return, or raise. *)

Record Collaborators : Type := mkCollab {
  store_init : Res unit;
  bindThirdparty : Res unit;
  appservice_begin : Res unit;
  discordbot_init : Res unit;
  discordbot_run : Res unit;
  OnAliasQuery : string → Res jsval;
  OnAliasQueried : string → jsval → Res unit;
  getEntriesByMatrixId : string → Res jsval;
  OnEvent : jsval → jsval → Res unit;
}.

(** The methods of the logger interface that [LogService.setLogger] takes. *)
Inductive LogServiceMethod : Type := LDebug | LError | LInfo | LWarn.

Definition method_name (m : LogServiceMethod) : string :=
  match m with
  | LDebug => "debug"
  | LError => "error"
  | LInfo => "info"
  | LWarn => "warn"
  end.

(** ** The log multiplexer ([setupLogging], lines 72-102) *)

(** [s.includes && s.includes("M_USER_IN_USE")]. Member access on [undefined]
    or [null] is a [TypeError]; strings and arrays carry the method; on any
    other value the property is looked up, and calling a property that is not
    a function is a [TypeError] (this universe has no function values). *)
Definition spam_probe (s : jsval) : Res jsval :=
  match s with
  | JUndefined =>
      Raise (TypeError "Cannot read properties of undefined (reading 'includes')")
  | JNull =>
      Raise (TypeError "Cannot read properties of null (reading 'includes')")
  | JStr t => Ok (JBool (includes "M_USER_IN_USE" t))
  | JArr elems => Ok (JBool (arr_includes "M_USER_IN_USE" elems))
  | JObj props =>
      let f := lookup_prop "includes" props in
      if truthy f then Raise (TypeError "s.includes is not a function") else Ok f
  | JBool _ | JNum _ | JNaN => Ok JUndefined
  end.

(** [Array.prototype.find]. *)
Fixpoint array_find (pred : jsval → Res jsval) (l : list jsval) : Res jsval :=
  match l with
  | [] => Ok JUndefined
  | x :: rest =>
      match pred x with
      | Raise err => Raise err
      | Ok r => if truthy r then Ok x else array_find pred rest
      end
  end.

(** [if (!Array.isArray(args)) { args = [args]; }] *)
Definition normalize_args (args : jsval) : list jsval :=
  match args with
  | JArr elems => elems
  | v => [v]
  end.

Definition logFunc (level module : string) (args : jsval) : M unit :=
  let args := normalize_args args in
  found ← lift_res (array_find spam_probe args);
  if truthy found then
    (* Spammy logs begon *)
    mret ()
  else
    let sdk_mod := "bot-sdk" +:+ module in
    cached ← gets (λ w, logMap w !! sdk_mod);
    logger ← match cached with
             | Some logger => mret logger
             | None =>
                 let logger := {| log_module := sdk_mod |} in
                 emit (EvNewLog sdk_mod);;
                 modify (λ w, set_logMap (<[sdk_mod := logger]> (logMap w)) w);;
                 mret logger
             end;
    log_call level (log_module logger) [JArr args].

(** The object handed to [LogService.setLogger]. *)
Definition installed_logger (m : LogServiceMethod) (sdk_mod : string) (args : jsval) : M unit :=
  match m with
  | LDebug => logFunc "silly" sdk_mod args
  | LError => logFunc "error" sdk_mod args
  | LInfo => logFunc "info" sdk_mod args
  | LWarn => logFunc "warn" sdk_mod args
  end.

Definition setupLogging : M unit :=
  modify (set_logMap ∅);;
  emit EvSetLogger.

(** ** The event handlers installed by [run] (lines 180-197) *)

(** [createRoomOpts.__roomId]. *)
Definition get_roomId (createRoomOpts : jsval) : Res jsval :=
  match createRoomOpts with
  | JUndefined =>
      Raise (TypeError "Cannot read properties of undefined (reading '__roomId')")
  | JNull =>
      Raise (TypeError "Cannot read properties of null (reading '__roomId')")
  | JObj props => Ok (lookup_prop "__roomId" props)
  | _ => Ok JUndefined
  end.

Definition query_room_message : string :=
  "Exception thrown while handling " +:+ dquote +:+ "query.room" +:+ dquote +:+ " event".


(** [createRoom] is handed the options object itself and may write to it:
    when it returns, [createRoom o = Ok o'] gives the object as the call
    left it. A value that is not an object cannot be written to. *)
Definition settled (before after : jsval) : jsval :=
  match before with
  | JObj _ | JArr _ => after
  | _ => before
  end.

Definition on_query_room (c : Collaborators)
    (roomAlias : string) (createRoom : jsval → Res jsval) : M unit :=
  try_catch
    (createRoomOpts ← call (EvOnAliasQuery roomAlias) (OnAliasQuery c roomAlias);
     left ← call (EvCreateRoom createRoomOpts) (createRoom createRoomOpts);
     let createRoomOpts := settled createRoomOpts left in
     roomId ← lift_res (get_roomId createRoomOpts);
     call (EvOnAliasQueried roomAlias roomId) (OnAliasQueried c roomAlias roomId))
    (λ err, log_error [JStr query_room_message; err]).


(** ** The program proper

    What [discordas.ts] imports and does not define is a parameter here:
    js-yaml's [safeDump] and [safeLoad], the token source behind [uuid()]
    (its n-th draw), the error with which [fs] refuses to write a path (if
    it does), and from [./config] the freshly constructed configuration
    together with [applyConfig] and [applyEnvironmentOverrides]. *)

Class Imports : Type := {
  safeDump : jsval → string;
  safeLoad : string → Res jsval;
  uuid_gen : nat → string;
  write_error : string → option jsval;
  new_DiscordBridgeConfig : DiscordBridgeConfig;
  applyConfig : DiscordBridgeConfig → jsval → DiscordBridgeConfig;
  applyEnvironmentOverrides :
    DiscordBridgeConfig → gmap string string → DiscordBridgeConfig;
}.

Section Bootstrap.

Context {X : Imports}.

(** [uuid()]: the next draw from the token source. *)
Definition uuid : M string :=
  n ← gets uuid_next;
  let token := uuid_gen n in
  modify (set_uuid_next (S n));;
  emit (EvUuid token);;
  mret token.

(** The object literal of lines 45-68. *)
Definition registration_object (as_token hs_token : string) (url : jsval) : jsval :=
  JObj [ ("as_token", JStr as_token);
         ("hs_token", JStr hs_token);
         ("id", JStr "discord-bridge");
         ("namespaces",
           JObj [ ("aliases", JArr [ JObj [ ("exclusive", JBool true);
                                            ("regex", JStr "#_discord_.*") ] ]);
                  ("rooms", JArr []);
                  ("users", JArr [ JObj [ ("exclusive", JBool true);
                                          ("regex", JStr "@_discord_.*") ] ]) ]);
         ("protocols", JArr [ JStr "discord" ]);
         ("rate_limited", JBool false);
         ("sender_localpart", JStr "_discord_bot");
         ("url", url) ].

(** Lines 41-70. *)
Definition generateRegistration (opts : CliOpts) (registrationPath : string) : M unit :=
  if negb (truthy (str_val (opt_url opts))) then
    throw (Error "'url' not given in command line opts, cannot generate registration file")
  else
    as_token ← uuid;
    hs_token ← uuid;
    let reg := registration_object as_token hs_token (str_val (opt_url opts)) in
    writeFileSync write_error registrationPath (safeDump reg).

Definition legacy_message : string :=
  "The keys 'roomStorePath' and/or 'userStorePath' is still defined in the config. " +:+
  "Please see docs/bridge-migrations.md on " +:+
  "https://github.com/Half-Shot/matrix-appservice-discord/".

(** Lines 104-213. [env] is [process.env]. *)
Definition run (opts : CliOpts) (env : gmap string string) (c : Collaborators) : M unit :=
  (if opt_help opts then
     emit EvPrintUsage;;
     process_exit 0
   else mret ());;
  let configPath := str_or (opt_config opts) "config.yaml" in
  let registrationPath := str_or (opt_file opts) "discord-registration.yaml" in
  if opt_generate_registration opts then
    present ← existsSync registrationPath;
    if present : bool then
      throw (Error "Not writing new registration file, file already exists")
    else
      generateRegistration opts registrationPath
  else
    let config := new_DiscordBridgeConfig in
    let port := js_or (num_val (opt_port opts)) (port (bridge config)) in
    if negb (truthy port) then
      throw (Error "Port not given in command line or config file")
    else
    text ← readFileSync configPath;
    readConfig ← lift_res (safeLoad text);
    if negb (String.eqb (typeof readConfig) "object") then
      throw (Error "Config is not of type object")
    else
    let config := applyConfig config readConfig in
    let config := applyEnvironmentOverrides config env in
    emit (EvLogConfigure (logging config));;
    if truthy (js_or (roomStorePath (database config)) (userStorePath (database config))) then
      log_error [JStr legacy_message];;
      throw (Error "Bridge has legacy configuration options and is unable to start")
    else
    regtext ← readFileSync registrationPath;
    registration ← lift_res (safeLoad regtext);
    setupLogging;;
    emit EvNewStore;;
    emit (EvNewAppservice (js_or (bindAddress (bridge config)) (JStr "0.0.0.0"))
                          (domain (bridge config))
                          (homeserverUrl (bridge config))
                          port registration);;
    (if truthy (enable (metrics config)) then
       log_info [JStr "Enabled metrics"];;
       emit EvMetricsSet
     else mret ());;
    try_catch
      (call EvStoreInit (store_init c))
      (λ ex, log_error [JStr "Failed to init database. Exiting."; ex];;
             process_exit 1);;
    emit EvNewDiscordBot;;
    emit (EvOn "query.room");;
    emit (EvOn "room.event");;
    call EvBindThirdparty (bindThirdparty c);;
    call EvBegin (appservice_begin c);;
    log_info [JStr ("Started listening on port " +:+ js_to_string port)];;
    try_catch
      (call EvBotInit (discordbot_init c);;
       call EvBotRun (discordbot_run c);;
       log_info [JStr "Discordbot started successfully"])
      (λ err, log_error [err];;
              log_error [JStr "Failure during startup. Exiting"];;
              process_exit 1).

(** Lines 215-218: [run().catch(...)]. *)
Definition main (opts : CliOpts) (env : gmap string string) (c : Collaborators) : M unit :=
  try_catch
    (run opts env c)
    (λ err, log_error [JStr "A fatal error occurred during startup:"; err];;
            process_exit 1).

End Bootstrap.

(** ** Observations on values and traces *)

(** [v[k]] for an object; anything else has no own properties here. *)
Definition js_get (v : jsval) (k : string) : jsval :=
  match v with
  | JObj props => lookup_prop k props
  | _ => JUndefined
  end.

(** Does a logged value carry the text [needle] anywhere inside it? *)
Fixpoint mentions (needle : string) (v : jsval) : bool :=
  match v with
  | JStr s => includes needle s
  | JArr elems => existsb (mentions needle) elems
  | JObj props => existsb (λ kv, match kv with (_, x) => mentions needle x end) props
  | _ => false
  end.

(** Some log entry of the trace carries [needle]. *)
Definition logged_with (needle : string) (tr : list Event) : bool :=
  existsb (λ e, match e with
                | EvLog _ _ parts => existsb (mentions needle) parts
                | _ => false
                end) tr.

Definition is_begin (e : Event) : bool :=
  match e with EvBegin => true | _ => false end.

(** The log line of line 202. *)
Definition is_started_listening (e : Event) : bool :=
  match e with
  | EvLog _ _ [JStr s] => String.prefix "Started listening on port " s
  | _ => false
  end.

(** The transport is started only with both subscriptions in place: every
    [appservice.begin()] in the trace is preceded by both [appservice.on]
    calls. *)
Definition subscribed_before_begin (tr : list Event) : Prop :=
  ∀ pre post : list Event, tr = pre ++ EvBegin :: post →
    EvOn "query.room" ∈ pre ∧ EvOn "room.event" ∈ pre.

(** The same, as a scan that remembers which subscriptions it has seen. *)
Fixpoint handlers_ready (q r : bool) (tr : list Event) : bool :=
  match tr with
  | [] => true
  | EvOn name :: rest =>
      handlers_ready (q || String.eqb name "query.room")
                     (r || String.eqb name "room.event") rest
  | EvBegin :: rest => q && r && handlers_ready q r rest
  | _ :: rest => handlers_ready q r rest
  end.

(** Every cached logger was created for the tag it is cached under. *)
Definition logMap_wf (m : gmap string Log) : Prop :=
  ∀ tag logger, m !! tag = Some logger → log_module logger = tag.

(** Arguments on which the probe of line 79 can be evaluated: not
    [undefined] or [null], and no object with a truthy [includes] property. *)
Definition plain_arg (v : jsval) : bool :=
  match v with
  | JUndefined | JNull => false
  | JObj props => negb (truthy (lookup_prop "includes" props))
  | _ => true
  end.

(** An argument that is a string containing the marker. *)
Definition spam_string (v : jsval) : bool :=
  match v with
  | JStr t => includes "M_USER_IN_USE" t
  | _ => false
  end.

(** An argument the probe of line 79 answers [true] on: such a string, or an
    array one of whose elements is exactly the marker. *)
Definition spam_arg (v : jsval) : bool :=
  match v with
  | JStr t => includes "M_USER_IN_USE" t
  | JArr elems => arr_includes "M_USER_IN_USE" elems
  | _ => false
  end.

(** The [Log] method each [LogService] method is routed to. *)
Definition forwarded_level (m : LogServiceMethod) : string :=
  match m with
  | LDebug => "silly"
  | LError => "error"
  | LInfo => "info"
  | LWarn => "warn"
  end.

(** What a forwarded call adds to the trace: the logger is created on first
    use of its tag, then called with the argument array as one value. *)
Definition forwarding (cache : gmap string Log) (level tag : string)
    (args : list jsval) : list Event :=
  match cache !! tag with
  | Some _ => [EvLog level tag [JArr args]]
  | None => [EvNewLog tag; EvLog level tag [JArr args]]
  end.

(** ** Sample instances of the imports, for concrete runs *)

(** A file system in which the directory [nodir] does not exist. *)
Definition nodir_refused (path : string) : option jsval :=
  if String.prefix "nodir/" path then
    Some (Error ("ENOENT: no such file or directory, open '" +:+ path +:+ "'"))
  else None.

(** A loader that knows a fixed table of documents. *)
Fixpoint table_load (docs : list (string * jsval)) (text : string) : Res jsval :=
  match docs with
  | [] => Raise (Error "YAMLException: cannot parse document")
  | (t, v) :: rest => if String.eqb t text then Ok v else table_load rest text
  end.

(** A dumper that renders the registration's tokens and url on one line. *)
Definition line_dump (v : jsval) : string :=
  "as_token: " +:+ js_to_string (js_get v "as_token") +:+
  ", hs_token: " +:+ js_to_string (js_get v "hs_token") +:+
  ", url: " +:+ js_to_string (js_get v "url").

Definition pick (v dflt : jsval) : jsval :=
  match v with JUndefined => dflt | _ => v end.

(** An [applyConfig] that copies the fields present in the document. *)
Definition overlay_config (cfg : DiscordBridgeConfig) (doc : jsval) : DiscordBridgeConfig :=
  let b := js_get doc "bridge" in
  let d := js_get doc "database" in
  mkConfig
    (mkBridgeCfg (pick (js_get b "domain") (domain (bridge cfg)))
                 (pick (js_get b "homeserverUrl") (homeserverUrl (bridge cfg)))
                 (pick (js_get b "port") (port (bridge cfg)))
                 (pick (js_get b "bindAddress") (bindAddress (bridge cfg))))
    (mkDatabaseCfg (pick (js_get d "roomStorePath") (roomStorePath (database cfg)))
                   (pick (js_get d "userStorePath") (userStorePath (database cfg))))
    (mkMetricsCfg (pick (js_get (js_get doc "metrics") "enable") (enable (metrics cfg))))
    (pick (js_get doc "logging") (logging cfg)).

Definition sample_config_text : string :=
  "bridge: {domain: localhost, homeserverUrl: 'http://localhost:8008', port: 9005}".

Definition sample_config_doc : jsval :=
  JObj [("bridge", JObj [("domain", JStr "localhost");
                         ("homeserverUrl", JStr "http://localhost:8008");
                         ("port", JNum 9005)])].

Definition sample_registration_text : string := "id: discord-bridge".

Definition sample_registration_doc : jsval := JObj [("id", JStr "discord-bridge")].

Definition scalar_config_text : string := "just a sentence".

Definition sample_imports : Imports := {|
  safeDump := line_dump;
  safeLoad := table_load [ (sample_config_text, sample_config_doc);
                           (sample_registration_text, sample_registration_doc);
                           (scalar_config_text, JStr scalar_config_text) ];
  uuid_gen := λ n, pretty n;
  write_error := nodir_refused;
  new_DiscordBridgeConfig := empty_config;
  applyConfig := overlay_config;
  applyEnvironmentOverrides := λ cfg _, cfg;
|}.

Definition sample_files : gmap string string :=
  {[ "config.yaml" := sample_config_text;
     "discord-registration.yaml" := sample_registration_text ]}.

Definition no_opts : CliOpts := mkOpts None None None None false false.

(** Collaborators that all succeed. *)
Definition healthy : Collaborators :=
  mkCollab (Ok ()) (Ok ()) (Ok ()) (Ok ()) (Ok ())
           (λ _, Ok (JObj [("__roomId", JStr "!room:localhost")]))
           (λ _ _, Ok ())
           (λ _, Ok (JArr []))
           (λ _ _, Ok ()).

Definition with_store_init (r : Res unit) (c : Collaborators) : Collaborators :=
  mkCollab r (bindThirdparty c) (appservice_begin c) (discordbot_init c)
           (discordbot_run c) (OnAliasQuery c) (OnAliasQueried c)
           (getEntriesByMatrixId c) (OnEvent c).

Definition with_OnAliasQuery (f : string → Res jsval) (c : Collaborators) : Collaborators :=
  mkCollab (store_init c) (bindThirdparty c) (appservice_begin c) (discordbot_init c)
           (discordbot_run c) f (OnAliasQueried c)
           (getEntriesByMatrixId c) (OnEvent c).

Definition scalar_files : gmap string string :=
  {[ "config.yaml" := scalar_config_text;
     "discord-registration.yaml" := sample_registration_text ]}.

(** [--generate-registration --url https://bridge.example:9000 --file reg.yaml] *)
Definition generate_opts : CliOpts :=
  mkOpts None (Some "https://bridge.example:9000") None (Some "reg.yaml") true false.

(** The same with [--help] added. *)
Definition help_and_generate_opts : CliOpts :=
  mkOpts None (Some "https://bridge.example:9000") None (Some "reg.yaml") true true.

Definition occupied_files : gmap string string :=
  {[ "reg.yaml" := "id: somebody-else" ]}.

Definition port_9000 : CliOpts := mkOpts None None (Some 9000) None false false.

Definition is_store_init (e : Event) : bool :=
  match e with EvStoreInit => true | _ => false end.

Definition is_read_file (e : Event) : bool :=
  match e with EvReadFile _ => true | _ => false end.

(** The entry that the [catch] around [store.init()] writes. *)
Definition store_failure (ex : jsval) : Event :=
  EvLog "error" "DiscordAS" [JStr "Failed to init database. Exiting."; ex].

Definition missing_port : jsval :=
  Error "Port not given in command line or config file".

(** The entry that the outermost [catch] writes. *)
Definition fatal (err : jsval) : Event :=
  EvLog "error" "DiscordAS" [JStr "A fatal error occurred during startup:"; err].

(** The entry that the [catch] of the alias-query handler writes. *)
Definition query_room_failure (err : jsval) : Event :=
  EvLog "error" "DiscordAS" [JStr query_room_message; err].

Definition sample_alias : string := "#_discord_1234_5678:localhost".

(** ** Further observations, for the stages of [run] *)

Definition is_exit (e : Event) : bool :=
  match e with EvExit _ => true | _ => false end.

Definition is_new_bot (e : Event) : bool :=
  match e with EvNewDiscordBot => true | _ => false end.

Definition is_bind_thirdparty (e : Event) : bool :=
  match e with EvBindThirdparty => true | _ => false end.

Definition is_bot_init (e : Event) : bool :=
  match e with EvBotInit => true | _ => false end.

Definition is_bot_run (e : Event) : bool :=
  match e with EvBotRun => true | _ => false end.

(** The events the registration path can produce: it looks at the
    destination, draws tokens, writes, and may log and exit on failure. *)
Definition registration_only (e : Event) : bool :=
  match e with
  | EvExistsSync _ | EvUuid _ | EvWriteFile _ _ | EvLog _ _ _ | EvExit _ => true
  | _ => false
  end.

(** The line of line 207. *)
Definition is_success_line (e : Event) : bool :=
  match e with
  | EvLog level _ parts =>
      String.eqb level "info" &&
      match parts with
      | [JStr s] => String.eqb s "Discordbot started successfully"
      | _ => false
      end
  | _ => false
  end.

Definition log_parts (e : Event) : list jsval :=
  match e with EvLog _ _ parts => parts | _ => [] end.


Definition url_missing : jsval :=
  Error "'url' not given in command line opts, cannot generate registration file".

Definition not_an_object : jsval := Error "Config is not of type object".

Definition legacy_config : jsval :=
  Error "Bridge has legacy configuration options and is unable to start".

(** What [fs.readFileSync] raises for a path that does not exist. *)
Definition enoent (path : string) : jsval :=
  Error ("ENOENT: no such file or directory, open '" +:+ path +:+ "'").

(** The line of line 202. *)
Definition started_listening (port : jsval) : Event :=
  EvLog "info" "DiscordAS" [JStr ("Started listening on port " +:+ js_to_string port)].

(** What the [catch] of lines 208-212 does. *)
Definition startup_failure (err : jsval) : list Event :=
  [ EvLog "error" "DiscordAS" [err];
    EvLog "error" "DiscordAS" [JStr "Failure during startup. Exiting"];
    EvExit 1 ].

(** What lines 163-166 add to the trace. *)
Definition metrics_stage (config : DiscordBridgeConfig) : list Event :=
  if truthy (enable (metrics config)) then
    [EvLog "info" "DiscordAS" [JStr "Enabled metrics"]; EvMetricsSet]
  else [].

Definition with_bindThirdparty (r : Res unit) (c : Collaborators) : Collaborators :=
  mkCollab (store_init c) r (appservice_begin c) (discordbot_init c)
           (discordbot_run c) (OnAliasQuery c) (OnAliasQueried c)
           (getEntriesByMatrixId c) (OnEvent c).

Definition with_appservice_begin (r : Res unit) (c : Collaborators) : Collaborators :=
  mkCollab (store_init c) (bindThirdparty c) r (discordbot_init c)
           (discordbot_run c) (OnAliasQuery c) (OnAliasQueried c)
           (getEntriesByMatrixId c) (OnEvent c).

Definition with_discordbot_run (r : Res unit) (c : Collaborators) : Collaborators :=
  mkCollab (store_init c) (bindThirdparty c) (appservice_begin c) (discordbot_init c)
           r (OnAliasQuery c) (OnAliasQueried c)
           (getEntriesByMatrixId c) (OnEvent c).


(** [--generate-registration --file reg.yaml], without a url. *)
Definition generate_without_url : CliOpts :=
  mkOpts None None None (Some "reg.yaml") true false.

Definition legacy_config_text : string :=
  "database: {roomStorePath: room-store.db}".

Definition legacy_config_doc : jsval :=
  JObj [("database", JObj [("roomStorePath", JStr "room-store.db")])].

Definition broken_config_text : string := "bridge: [unterminated".

(** The sample imports with a loader that also knows the legacy document. *)
Definition legacy_imports : Imports := {|
  safeDump := line_dump;
  safeLoad := table_load [ (legacy_config_text, legacy_config_doc);
                           (sample_registration_text, sample_registration_doc) ];
  uuid_gen := λ n, pretty n;
  write_error := nodir_refused;
  new_DiscordBridgeConfig := empty_config;
  applyConfig := overlay_config;
  applyEnvironmentOverrides := λ cfg _, cfg;
|}.

Definition legacy_files : gmap string string :=
  {[ "config.yaml" := legacy_config_text;
     "discord-registration.yaml" := sample_registration_text ]}.

Definition broken_files : gmap string string :=
  {[ "config.yaml" := broken_config_text;
     "discord-registration.yaml" := sample_registration_text ]}.

Definition config_only_files : gmap string string :=
  {[ "config.yaml" := sample_config_text ]}.


(** [--generate-registration --url ... --file nodir/reg.yaml] *)
Definition generate_into_nodir : CliOpts :=
  mkOpts None (Some "https://bridge.example:9000") None (Some "nodir/reg.yaml") true false.

(** ** Reasoning about runs *)

(** Unfold the effect layer, leaving only the decisions that depend on the
    inputs. *)
Ltac run_monad :=
  cbv beta iota zeta delta
    [mbind M_bind mret M_ret throw emit process_exit try_catch call log_call
     log_error log_info lift_res gets modify existsSync readFileSync
     writeFileSync uuid setupLogging set_fs set_uuid_next set_trace set_logMap
     fs uuid_next trace logMap boot app fst snd].

Ltac run_monad_in H :=
  cbv beta iota zeta delta
    [mbind M_bind mret M_ret throw emit process_exit try_catch call log_call
     log_error log_info lift_res gets modify existsSync readFileSync
     writeFileSync uuid setupLogging set_fs set_uuid_next set_trace set_logMap
     fs uuid_next trace logMap boot app fst snd] in H.

Section Properties.

Context {X : Imports}.

(** C10. With [--help], [main] prints the usage text and exits with status
    0, and that is all it does: whatever the other options are (also
    [--generate-registration]), there is no existence check, no token is
    drawn and the file system is as it was. *)
Theorem help_exits_first (opts : CliOpts) env c files n :
  opt_help opts = true →
  main opts env c (boot files n)
  = (Exit 0, mkWorld files n [EvPrintUsage; EvExit 0] ∅).
Proof.
  intros Hhelp. unfold main, run. rewrite Hhelp. reflexivity.
Qed.

(** C4. Asking for a registration at a path where a file exists: [run]
    raises the already-exists error right after the existence check. No
    token has been drawn, nothing was written and the file system is the
    one it started with; [main] then logs the error and exits with 1. *)
Theorem existing_registration_untouched (opts : CliOpts) env c files n :
  opt_help opts = false →
  opt_generate_registration opts = true →
  is_Some (files !! str_or (opt_file opts) "discord-registration.yaml") →
  let path := str_or (opt_file opts) "discord-registration.yaml" in
  let already := Error "Not writing new registration file, file already exists" in
  run opts env c (boot files n)
  = (Throw already, mkWorld files n [EvExistsSync path] ∅)
  ∧ main opts env c (boot files n)
    = (Exit 1,
       mkWorld files n
         [EvExistsSync path;
          EvLog "error" "DiscordAS"
            [JStr "A fatal error occurred during startup:"; already];
          EvExit 1] ∅).
Proof.
  intros Hhelp Hgen Hfile path already.
  unfold main, run. rewrite Hhelp, Hgen. run_monad.
  fold path. rewrite bool_decide_true by exact Hfile.
  split; reflexivity.
Qed.

(** C5. Generating a registration with a non-empty url at a path where no
    file exists and which the file system accepts to write succeeds and
    leaves at that path the dump of an object whose sender localpart is
    [_discord_bot], whose alias and user namespaces are the single exclusive
    claims [#_discord_.*] and [@_discord_.*], whose room namespace is empty,
    whose protocols are [discord] alone and whose url is the one supplied. *)
Theorem generated_registration_shape (opts : CliOpts) env c files n u :
  opt_help opts = false →
  opt_generate_registration opts = true →
  opt_url opts = Some u →
  u ≠ EmptyString →
  files !! str_or (opt_file opts) "discord-registration.yaml" = None →
  write_error (str_or (opt_file opts) "discord-registration.yaml") = None →
  let path := str_or (opt_file opts) "discord-registration.yaml" in
  let r := main opts env c (boot files n) in
  ∃ reg : jsval,
    r.1 = Ret () ∧
    fs r.2 = <[path := safeDump reg]> files ∧
    js_get reg "sender_localpart" = JStr "_discord_bot" ∧
    js_get (js_get reg "namespaces") "aliases"
      = JArr [JObj [("exclusive", JBool true); ("regex", JStr "#_discord_.*")]] ∧
    js_get (js_get reg "namespaces") "users"
      = JArr [JObj [("exclusive", JBool true); ("regex", JStr "@_discord_.*")]] ∧
    js_get (js_get reg "namespaces") "rooms" = JArr [] ∧
    js_get reg "protocols" = JArr [JStr "discord"] ∧
    js_get reg "url" = JStr u.
Proof.
  intros Hhelp Hgen Hurl Hu Hfresh Hwrite path r.
  exists (registration_object (uuid_gen n) (uuid_gen (S n)) (JStr u)).
  assert (Htruthy : truthy (JStr u) = true).
  { simpl. apply negb_true_iff, String.eqb_neq, Hu. }
  subst r. unfold main, run, generateRegistration.
  rewrite Hhelp, Hgen, Hurl. simpl str_val. rewrite Htruthy. run_monad.
  rewrite bool_decide_false by (rewrite Hfresh; apply is_Some_None).
  cbv beta iota. rewrite Hwrite.
  repeat split; reflexivity.
Qed.

(** C9. Two successful invocations of the generator on one token source,
    the second starting no earlier than the first ended. The artifact each
    one writes holds, in its [as_token] and [hs_token] fields, two tokens
    that are two separate, consecutive draws; and when the source never
    repeats a draw, the as-tokens of the two artifacts differ, their
    hs-tokens differ, and the two tokens inside each artifact differ. *)
Theorem registration_tokens_fresh
    (opts1 opts2 : CliOpts) (path1 path2 : string) (w1 w1' w2 w2' : World) :
  Inj (=) (=) uuid_gen →
  generateRegistration opts1 path1 w1 = (Ret (), w1') →
  generateRegistration opts2 path2 w2 = (Ret (), w2') →
  (uuid_next w1' ≤ uuid_next w2)%nat →
  let reg1 := registration_object (uuid_gen (uuid_next w1))
                (uuid_gen (S (uuid_next w1))) (str_val (opt_url opts1)) in
  let reg2 := registration_object (uuid_gen (uuid_next w2))
                (uuid_gen (S (uuid_next w2))) (str_val (opt_url opts2)) in
  fs w1' !! path1 = Some (safeDump reg1) ∧
  fs w2' !! path2 = Some (safeDump reg2) ∧
  js_get reg1 "as_token" = JStr (uuid_gen (uuid_next w1)) ∧
  js_get reg1 "hs_token" = JStr (uuid_gen (S (uuid_next w1))) ∧
  js_get reg2 "as_token" = JStr (uuid_gen (uuid_next w2)) ∧
  js_get reg2 "hs_token" = JStr (uuid_gen (S (uuid_next w2))) ∧
  js_get reg1 "as_token" ≠ js_get reg2 "as_token" ∧
  js_get reg1 "hs_token" ≠ js_get reg2 "hs_token" ∧
  js_get reg1 "as_token" ≠ js_get reg1 "hs_token" ∧
  js_get reg2 "as_token" ≠ js_get reg2 "hs_token".
Proof.
  intros Hinj Hgen1 Hgen2 Hlater reg1 reg2.
  destruct w1 as [f1 k1 t1 m1], w2 as [f2 k2 t2 m2].
  unfold generateRegistration in Hgen1, Hgen2.
  destruct (truthy (str_val (opt_url opts1))); [| discriminate Hgen1].
  destruct (truthy (str_val (opt_url opts2))); [| discriminate Hgen2].
  simpl negb in *. cbv iota in Hgen1, Hgen2.
  run_monad_in Hgen1. run_monad_in Hgen2.
  destruct (write_error path1); [discriminate Hgen1 |].
  destruct (write_error path2); [discriminate Hgen2 |].
  injection Hgen1 as <-. injection Hgen2 as <-.
  subst reg1 reg2. cbn [fs uuid_next] in *.
  assert (Hdistinct : ∀ i j : nat, i ≠ j → JStr (uuid_gen i) ≠ JStr (uuid_gen j)).
  { intros i j Hij [= Heq]. apply Hinj in Heq. contradiction. }
  split; [apply lookup_insert_eq |].
  split; [apply lookup_insert_eq |].
  repeat (split; [reflexivity |]).
  cbn [js_get registration_object lookup_prop String.eqb Ascii.eqb Bool.eqb].
  repeat split; apply Hdistinct; lia.
Qed.

End Properties.

(** ** The alias-query handler *)

(** C3, as amended. Whatever the room handler and the room-creation
    continuation do, the alias-query handler completes normally: nothing
    propagates and the process does not exit. A failure at any point of the
    chain (alias resolution, room creation, reading the room id off the
    options as the continuation left them, queried notification) ends the
    chain there and is logged once, at error level, as the fixed message
    followed by the raised value. *)
Theorem alias_query_failure_contained
    (c : Collaborators) (roomAlias : string) (createRoom : jsval → Res jsval) (w : World) :
  let r := on_query_room c roomAlias createRoom w in
  r.1 = Ret () ∧
  fs r.2 = fs w ∧
  (∀ err, OnAliasQuery c roomAlias = Raise err →
     trace r.2 = trace w ++ [EvOnAliasQuery roomAlias; query_room_failure err]) ∧
  (∀ o err, OnAliasQuery c roomAlias = Ok o → createRoom o = Raise err →
     trace r.2 = trace w ++ [EvOnAliasQuery roomAlias; EvCreateRoom o;
                             query_room_failure err]) ∧
  (∀ o o' err, OnAliasQuery c roomAlias = Ok o → createRoom o = Ok o' →
     get_roomId (settled o o') = Raise err →
     trace r.2 = trace w ++ [EvOnAliasQuery roomAlias; EvCreateRoom o;
                             query_room_failure err]) ∧
  (∀ o o' id err, OnAliasQuery c roomAlias = Ok o → createRoom o = Ok o' →
     get_roomId (settled o o') = Ok id → OnAliasQueried c roomAlias id = Raise err →
     trace r.2 = trace w ++ [EvOnAliasQuery roomAlias; EvCreateRoom o;
                             EvOnAliasQueried roomAlias id;
                             query_room_failure err]) ∧
  (∀ o o' id, OnAliasQuery c roomAlias = Ok o → createRoom o = Ok o' →
     get_roomId (settled o o') = Ok id → OnAliasQueried c roomAlias id = Ok () →
     trace r.2 = trace w ++ [EvOnAliasQuery roomAlias; EvCreateRoom o;
                             EvOnAliasQueried roomAlias id]).
Proof.
  intros r. subst r. destruct w as [f k t m].
  unfold on_query_room, query_room_failure.
  cbv beta iota zeta delta
    [mbind M_bind mret M_ret throw emit try_catch call log_call log_error
     lift_res set_trace fs uuid_next trace logMap fst snd].
  destruct (OnAliasQuery c roomAlias) as [o | e1] eqn:Hq; cbv beta iota;
    [destruct (createRoom o) as [o' | e2] eqn:Hc; cbv beta iota;
      [destruct (get_roomId (settled o o')) as [id | e3] eqn:Hid; cbv beta iota;
        [destruct (OnAliasQueried c roomAlias id) as [[] | e4] eqn:Hd;
         cbv beta iota | ] | ] | ];
    rewrite <- ?app_assoc; repeat split; intros; simplify_eq; simpl; congruence.
Qed.

(** The room handler resolves the sample alias to options without a room
    id, the continuation creates the room and writes its id on them, and the
    notification then fails: the handler returns, the notification was given
    the id the continuation wrote, and the one entry logged is the fixed
    message and the error. *)
Lemma alias_query_failure_contained_witness :
  let c := mkCollab (Ok ()) (Ok ()) (Ok ()) (Ok ()) (Ok ())
             (λ _, Ok (JObj [("visibility", JStr "public")]))
             (λ _ _, Raise (Error "cannot store the room"))
             (λ _, Ok (JArr []))
             (λ _ _, Ok ()) in
  let createRoom o :=
    Ok (JObj [("visibility", JStr "public"); ("__roomId", JStr "!new:localhost")]) in
  let r := on_query_room c sample_alias createRoom (boot ∅ 0) in
  r.1 = Ret () ∧
  trace r.2 = [EvOnAliasQuery sample_alias;
               EvCreateRoom (JObj [("visibility", JStr "public")]);
               EvOnAliasQueried sample_alias (JStr "!new:localhost");
               query_room_failure (Error "cannot store the room")].
Proof.
  intros c createRoom r.
  destruct (alias_query_failure_contained c sample_alias createRoom (boot ∅ 0))
    as (Hret & _ & _ & _ & _ & Hfail & _).
  split; [exact Hret |].
  exact (Hfail _ _ _ _ eq_refl eq_refl eq_refl eq_refl).
Defined.

(** C3, as stated, fails: the entry logged for a failed alias query does not
    carry the alias. *)
Lemma alias_query_log_omits_alias :
  let c := with_OnAliasQuery (λ _, Raise (Error "room lookup failed")) healthy in
  let r := on_query_room c sample_alias (λ o, Ok o) (boot ∅ 0) in
  r.1 = Ret () ∧
  trace r.2 = [EvOnAliasQuery sample_alias;
               EvLog "error" "DiscordAS"
                 [JStr query_room_message; Error "room lookup failed"]] ∧
  logged_with sample_alias (trace r.2) = false.
Proof. vm_compute. repeat split. Qed.

(** ** The log multiplexer *)

Lemma includes_marker_nonempty (t : string) :
  includes "M_USER_IN_USE" t = true → truthy (JStr t) = true.
Proof. destruct t; [discriminate | reflexivity]. Qed.

(** On arguments the probe can be evaluated on, [find] returns a truthy
    element exactly when some argument answers the probe. *)
Lemma array_find_plain (l : list jsval) :
  forallb plain_arg l = true →
  ∃ found, array_find spam_probe l = Ok found ∧ truthy found = existsb spam_arg l.
Proof.
  induction l as [| x rest IH]; intros Hplain.
  - exists JUndefined. split; reflexivity.
  - cbn [forallb] in Hplain. apply andb_true_iff in Hplain as [Hx Hrest].
    destruct (IH Hrest) as (found & Hfind & Htruthy).
    destruct x as [ | | b | z | | t | elems | props ]; try discriminate Hx;
      cbn [array_find spam_probe existsb spam_arg orb truthy];
      try (exists found; split; [exact Hfind | exact Htruthy]).
    + destruct (includes "M_USER_IN_USE" t) eqn:Hinc; cbn [truthy orb].
      * exists (JStr t). split; [reflexivity |].
        apply includes_marker_nonempty, Hinc.
      * exists found. split; [exact Hfind | exact Htruthy].
    + destruct (arr_includes "M_USER_IN_USE" elems); cbn [truthy orb].
      * exists (JArr elems). split; reflexivity.
      * exists found. split; [exact Hfind | exact Htruthy].
    + cbn [plain_arg] in Hx. apply negb_true_iff in Hx. rewrite Hx.
      rewrite Hx. exists found. split; [exact Hfind | exact Htruthy].
Qed.

(** C7, as amended. For a call through the installed logger whose arguments
    the probe can be evaluated on: a value that is not an array is wrapped
    into a one-element array; if some argument is a string containing the
    marker, or an array with the marker among its elements, the call is
    dropped and the world is untouched; otherwise the argument array is
    passed, as one value, to the logger cached for the prefixed module name
    (created on first use), at level silly for a debug call and at the
    call's own level for error, info and warn. *)
Theorem multiplexer_routes
    (m : LogServiceMethod) (module : string) (args : jsval) (w : World) :
  forallb plain_arg (normalize_args args) = true →
  logMap_wf (logMap w) →
  let items := normalize_args args in
  let tag := "bot-sdk" +:+ module in
  let r := installed_logger m module args w in
  (∀ elems, args = JArr elems → items = elems) ∧
  ((∀ elems, args ≠ JArr elems) → items = [args]) ∧
  r.1 = Ret () ∧
  (existsb spam_arg items = true → r.2 = w) ∧
  (existsb spam_arg items = false →
     trace r.2 = trace w ++ forwarding (logMap w) (forwarded_level m) tag items ∧
     logMap r.2 = <[tag := {| log_module := tag |}]> (logMap w) ∧
     fs r.2 = fs w ∧ uuid_next r.2 = uuid_next w) ∧
  logMap_wf (logMap r.2).
Proof.
  intros Hplain Hwf items tag r.
  split; [intros elems ->; reflexivity |].
  split; [intros Hnot; destruct args; try reflexivity; destruct (Hnot _ eq_refl) |].
  destruct (array_find_plain _ Hplain) as (found & Hfind & Htruthy).
  fold items in Hfind, Htruthy.
  assert (Hr : r = logFunc (forwarded_level m) module args w) by (destruct m; reflexivity).
  rewrite Hr. clear Hr r. destruct w as [f k t cache]. cbn [logMap] in Hwf.
  unfold logFunc. fold items. fold tag. rewrite Hfind.
  cbv beta iota zeta delta
    [mbind M_bind mret M_ret throw emit log_call lift_res gets modify
     set_trace set_logMap fs uuid_next trace logMap fst snd].
  rewrite Htruthy. unfold forwarding.
  destruct (existsb spam_arg items); cbv beta iota.
  { repeat split; try discriminate; exact Hwf. }
  destruct (cache !! tag) as [logger |] eqn:Hcached; cbv beta iota.
  - pose proof (Hwf _ _ Hcached) as Hmod.
    destruct logger as [lm]. cbn [log_module] in *. subst lm.
    repeat split; try discriminate; try exact Hwf.
    symmetry. apply insert_id, Hcached.
  - repeat split; try discriminate.
    + rewrite <- app_assoc. reflexivity.
    + intros tag' logger Hlook.
      destruct (decide (tag = tag')) as [<- | Hne].
      * rewrite lookup_insert_eq in Hlook. injection Hlook as <-. reflexivity.
      * rewrite lookup_insert_ne in Hlook by exact Hne. exact (Hwf _ _ Hlook).
Qed.

(** [setupLogging] starts from an empty cache, which is well formed. *)
Lemma setupLogging_wf (w : World) :
  (setupLogging w).1 = Ret () ∧ logMap_wf (logMap (setupLogging w).2).
Proof.
  destruct w as [f k t m]. split; [reflexivity |].
  intros tag logger Hlook.
  change ((∅ : gmap string Log) !! tag = Some logger) in Hlook.
  rewrite lookup_empty in Hlook. discriminate Hlook.
Qed.

(** An info call with an ordinary message on a fresh multiplexer. *)
Lemma multiplexer_routes_witness :
  let r := installed_logger LInfo "Appservice" (JStr "listening") (boot ∅ 0) in
  r.1 = Ret () ∧
  trace r.2 = [EvNewLog "bot-sdkAppservice";
               EvLog "info" "bot-sdkAppservice" [JArr [JStr "listening"]]].
Proof.
  intros r.
  assert (Hwf : logMap_wf (logMap (boot ∅ 0))).
  { intros tag logger Hlook. cbn in Hlook. rewrite lookup_empty in Hlook.
    discriminate Hlook. }
  destruct (multiplexer_routes LInfo "Appservice" (JStr "listening") (boot ∅ 0)
              eq_refl Hwf) as (_ & _ & Hret & _ & Hforward & _).
  split; [exact Hret |].
  destruct (Hforward eq_refl) as (Htrace & _).
  exact Htrace.
Defined.

(** C7, as stated, fails in three ways. A debug call is forwarded, but at
    level silly. A call whose only argument is an array holding the marker
    has no string argument containing the marker, yet it is dropped. A call
    whose argument is [null] is neither dropped nor forwarded: the probe
    raises. *)
Lemma multiplexer_not_as_stated :
  (let r := installed_logger LDebug "Appservice" (JStr "listening") (boot ∅ 0) in
   existsb spam_string (normalize_args (JStr "listening")) = false ∧
   trace r.2 = [EvNewLog "bot-sdkAppservice";
                EvLog "silly" "bot-sdkAppservice" [JArr [JStr "listening"]]] ∧
   method_name LDebug ≠ "silly") ∧
  (let args := JArr [JArr [JStr "M_USER_IN_USE"]] in
   let r := installed_logger LInfo "Appservice" args (boot ∅ 0) in
   existsb spam_string (normalize_args args) = false ∧
   r = (Ret (), boot ∅ 0)) ∧
  (let r := installed_logger LInfo "Appservice" JNull (boot ∅ 0) in
   existsb spam_string (normalize_args JNull) = false ∧
   r = (Throw (TypeError "Cannot read properties of null (reading 'includes')"),
        boot ∅ 0)).
Proof.
  split; [| split].
  - split; [reflexivity |]. split; [vm_compute; reflexivity | discriminate].
  - split; [reflexivity | vm_compute; reflexivity].
  - split; [reflexivity | vm_compute; reflexivity].
Qed.

(** ** The run path *)

Lemma handlers_ready_sound (tr : list Event) : ∀ q r,
  handlers_ready q r tr = true →
  ∀ pre post : list Event, tr = pre ++ EvBegin :: post →
    (q = true ∨ EvOn "query.room" ∈ pre) ∧ (r = true ∨ EvOn "room.event" ∈ pre).
Proof.
  induction tr as [| e rest IH]; intros q r Hscan pre post Hsplit.
  - destruct pre; discriminate Hsplit.
  - destruct pre as [| e' pre'].
    + injection Hsplit as -> ->. cbn in Hscan.
      apply andb_true_iff in Hscan as [Hqr _].
      apply andb_true_iff in Hqr as [-> ->]. split; left; reflexivity.
    + injection Hsplit as <- Hrest.
      assert (Hstep : ∀ q' r', handlers_ready q' r' rest = true →
                (q' = true ∨ EvOn "query.room" ∈ pre') ∧
                (r' = true ∨ EvOn "room.event" ∈ pre'))
        by (intros q' r' H'; exact (IH q' r' H' pre' post Hrest)).
      destruct e; cbn in Hscan;
        try (destruct (Hstep _ _ Hscan) as [[Hq | Hq] [Hr | Hr]];
             split; solve [left; assumption | right; right; assumption]).
      * destruct (Hstep _ _ Hscan) as [Hq Hr]. split.
        -- destruct Hq as [Hq | Hq]; [| right; right; exact Hq].
           apply orb_true_iff in Hq as [Hq | Hq]; [left; exact Hq |].
           apply String.eqb_eq in Hq as ->. right. left.
        -- destruct Hr as [Hr | Hr]; [| right; right; exact Hr].
           apply orb_true_iff in Hr as [Hr | Hr]; [left; exact Hr |].
           apply String.eqb_eq in Hr as ->. right. left.
      * apply andb_true_iff in Hscan as [_ Hscan].
        destruct (Hstep _ _ Hscan) as [[Hq | Hq] [Hr | Hr]];
          split; solve [left; assumption | right; right; assumption].
Qed.

Section RunPath.

Context {X : Imports}.

(** Decide, in program order, every test the run depends on. *)
Ltac split_run :=
  repeat
    (match goal with
     | |- context [match ?x with _ => _ end] =>
         lazymatch x with
         | context [match _ with _ => _ end] => fail
         | _ => destruct x eqn:?
         end
     end; cbv beta iota).

Lemma run_handlers_ready (opts : CliOpts) env c files n :
  handlers_ready false false (trace (main opts env c (boot files n)).2) = true.
Proof.
  unfold main, run, generateRegistration.
  run_monad. split_run; reflexivity.
Qed.

(** C8. In every run, each [appservice.begin()] comes after both
    [appservice.on] calls: the transport is never started with the
    alias-query handler or the timeline-event handler missing. *)
Theorem subscriptions_precede_begin (opts : CliOpts) env c files n :
  subscribed_before_begin (trace (main opts env c (boot files n)).2).
Proof.
  intros pre post Hsplit.
  destruct (handlers_ready_sound _ _ _ (run_handlers_ready opts env c files n)
              pre post Hsplit) as [[Hq | Hq] [Hr | Hr]];
    try discriminate Hq; try discriminate Hr.
  split; assumption.
Qed.

Lemma absent_by_scan (p : Event → bool) (x : Event) (tr : list Event) :
  p x = true → existsb p tr = false → x ∉ tr.
Proof.
  intros Hx Hscan Hin. apply list_elem_of_In in Hin.
  assert (Hex : existsb p tr = true) by (apply existsb_exists; eauto).
  congruence.
Qed.

Lemma none_by_scan (p : Event → bool) (tr : list Event) :
  existsb p tr = false → ∀ e, e ∈ tr → p e = false.
Proof.
  intros Hscan e Hin. apply list_elem_of_In in Hin.
  destruct (p e) eqn:Hp; [| reflexivity].
  assert (Hex : existsb p tr = true) by (apply existsb_exists; eauto).
  congruence.
Qed.

(** C6. When [store.init()] raises: a run that gets as far as calling it
    logs the failure as an error and exits with status 1, these being the
    last things it does; and no run starts the transport or writes the
    started-listening line. *)
Theorem store_init_failure_is_fatal (opts : CliOpts) env c files n ex :
  store_init c = Raise ex →
  let r := main opts env c (boot files n) in
  (EvStoreInit ∈ trace r.2 →
     r.1 = Exit 1 ∧
     ∃ pre, trace r.2 = pre ++ [EvStoreInit; store_failure ex; EvExit 1]) ∧
  (EvBegin ∉ trace r.2) ∧
  (∀ e, e ∈ trace r.2 → is_started_listening e = false).
Proof.
  intros Hinit r. subst r.
  unfold main, run, generateRegistration, store_failure.
  run_monad. rewrite Hinit. cbv beta iota.
  split_run;
    (split;
     [ intros Hreached;
       first
         [ exfalso; revert Hreached;
           apply (absent_by_scan is_store_init); reflexivity
         | split; [reflexivity |];
           match goal with
           | |- ∃ pre, ?tr = _ =>
               exists (take (length tr - 3)%nat tr); reflexivity
           end ]
     | split;
       [ apply (absent_by_scan is_begin); reflexivity
       | apply none_by_scan; reflexivity ] ]).
Qed.

(** The port is resolved, and its absence reported, from the options and
    the freshly constructed configuration alone: nothing has been read
    when [run] gives up. *)
Lemma port_checked_before_config_is_read (opts : CliOpts) env c files n :
  opt_help opts = false →
  opt_generate_registration opts = false →
  truthy (js_or (num_val (opt_port opts)) (port (bridge new_DiscordBridgeConfig)))
    = false →
  run opts env c (boot files n) = (Throw missing_port, boot files n).
Proof.
  intros Hhelp Hgen Hport. unfold run. rewrite Hhelp, Hgen. run_monad.
  rewrite Hport. reflexivity.
Qed.

(** X17. With a port on the command line, a configuration document that is
    not an object is rejected as such, after the file was read. *)
Lemma non_object_config_rejected (opts : CliOpts) env c files n text doc :
  opt_help opts = false →
  opt_generate_registration opts = false →
  truthy (js_or (num_val (opt_port opts)) (port (bridge new_DiscordBridgeConfig)))
    = true →
  files !! str_or (opt_config opts) "config.yaml" = Some text →
  safeLoad text = Ok doc →
  typeof doc ≠ "object" →
  run opts env c (boot files n)
  = (Throw (Error "Config is not of type object"),
     mkWorld files n [EvReadFile (str_or (opt_config opts) "config.yaml")] ∅).
Proof.
  intros Hhelp Hgen Hport Hfile Hload Htype.
  unfold run. rewrite Hhelp, Hgen. run_monad.
  rewrite Hport. cbn [negb]. cbv beta iota.
  rewrite Hfile. cbv beta iota. rewrite Hload. cbv beta iota.
  apply String.eqb_neq in Htype. rewrite Htype. reflexivity.
Qed.

(** X18. A configuration that still carries one of the legacy store paths
    is rejected once it has been applied and overridden, before the
    registration file is read and before the store or the appservice are
    constructed. *)
Lemma legacy_config_rejected (opts : CliOpts) env c files n text doc :
  opt_help opts = false →
  opt_generate_registration opts = false →
  truthy (js_or (num_val (opt_port opts)) (port (bridge new_DiscordBridgeConfig)))
    = true →
  files !! str_or (opt_config opts) "config.yaml" = Some text →
  safeLoad text = Ok doc →
  typeof doc = "object" →
  let config := applyEnvironmentOverrides (applyConfig new_DiscordBridgeConfig doc) env in
  truthy (js_or (roomStorePath (database config)) (userStorePath (database config)))
    = true →
  run opts env c (boot files n)
  = (Throw (Error "Bridge has legacy configuration options and is unable to start"),
     mkWorld files n
       [EvReadFile (str_or (opt_config opts) "config.yaml");
        EvLogConfigure (logging config);
        EvLog "error" "DiscordAS" [JStr legacy_message]] ∅).
Proof.
  intros Hhelp Hgen Hport Hfile Hload Htype config Hlegacy.
  unfold run. rewrite Hhelp, Hgen. run_monad.
  rewrite Hport. cbn [negb]. cbv beta iota.
  rewrite Hfile. cbv beta iota. rewrite Hload. cbv beta iota.
  rewrite Htype. cbn [String.eqb Ascii.eqb Bool.eqb negb]. cbv beta iota.
  fold config. rewrite Hlegacy. reflexivity.
Qed.

(** Whatever the configuration file holds, the port the appservice is
    constructed with is the command line's or, failing that, the freshly
    constructed configuration's. *)
Lemma appservice_port_predates_config (opts : CliOpts) env c files n :
  ∀ a d h p reg,
    EvNewAppservice a d h p reg ∈ trace (main opts env c (boot files n)).2 →
    p = js_or (num_val (opt_port opts)) (port (bridge new_DiscordBridgeConfig)).
Proof.
  intros a d h p reg.
  unfold main, run, generateRegistration.
  run_monad. split_run; intros Hin;
    repeat (apply elem_of_cons in Hin as [Hin | Hin];
            [first [discriminate Hin | injection Hin as -> -> -> -> ->; reflexivity] |]);
    apply elem_of_nil in Hin; destruct Hin.
Qed.

End RunPath.

(** [--help] together with [--generate-registration]. *)
Lemma help_exits_first_witness :
  main (X := sample_imports) help_and_generate_opts ∅ healthy (boot ∅ 0)
  = (Exit 0, mkWorld ∅ 0 [EvPrintUsage; EvExit 0] ∅).
Proof.
  exact (help_exits_first (X := sample_imports)
           help_and_generate_opts ∅ healthy ∅ 0 eq_refl).
Defined.

(** A registration is requested at [reg.yaml], which is taken. *)
Lemma existing_registration_untouched_witness :
  (main (X := sample_imports) generate_opts ∅ healthy (boot occupied_files 0)).1 = Exit 1 ∧
  fs (main (X := sample_imports) generate_opts ∅ healthy (boot occupied_files 0)).2
  = occupied_files.
Proof.
  assert (Htaken : is_Some (occupied_files !! str_or (opt_file generate_opts)
                                               "discord-registration.yaml"))
    by (exists "id: somebody-else"; reflexivity).
  destruct (existing_registration_untouched (X := sample_imports)
              generate_opts ∅ healthy occupied_files 0 eq_refl eq_refl Htaken)
    as [_ Hmain].
  rewrite Hmain. split; reflexivity.
Defined.

(** The end-to-end scenario: an empty directory. *)
Lemma generated_registration_shape_witness :
  ∃ reg : jsval,
    fs (main (X := sample_imports) generate_opts ∅ healthy (boot ∅ 0)).2
    = <["reg.yaml" := line_dump reg]> ∅ ∧
    js_get reg "sender_localpart" = JStr "_discord_bot" ∧
    js_get reg "url" = JStr "https://bridge.example:9000".
Proof.
  assert (Hurl : "https://bridge.example:9000" ≠ EmptyString) by discriminate.
  destruct (generated_registration_shape (X := sample_imports)
              generate_opts ∅ healthy ∅ 0 "https://bridge.example:9000"
              eq_refl eq_refl eq_refl Hurl (lookup_empty _) eq_refl)
    as (reg & _ & Hfs & Hsender & _ & _ & _ & _ & Hu).
  exists reg. split; [exact Hfs | split; [exact Hsender | exact Hu]].
Defined.

(** Two generations in a row from a source that counts its draws: the
    first artifact holds the tokens 0 and 1, the second 2 and 3. *)
Lemma registration_tokens_fresh_witness :
  let first := generateRegistration (X := sample_imports) generate_opts "a.yaml" (boot ∅ 0) in
  let second := generateRegistration (X := sample_imports) generate_opts "b.yaml" first.2 in
  let url := JStr "https://bridge.example:9000" in
  let reg1 := registration_object "0" "1" url in
  let reg2 := registration_object "2" "3" url in
  fs first.2 !! "a.yaml" = Some (line_dump reg1) ∧
  fs second.2 !! "b.yaml" = Some (line_dump reg2) ∧
  js_get reg1 "as_token" ≠ js_get reg2 "as_token" ∧
  js_get reg1 "hs_token" ≠ js_get reg2 "hs_token".
Proof.
  intros first second url reg1 reg2.
  assert (Hinj : Inj (=) (=) (uuid_gen (Imports := sample_imports))).
  { intros a b Hab. exact (pretty_nat_inj a b Hab). }
  destruct (registration_tokens_fresh (X := sample_imports)
              generate_opts generate_opts "a.yaml" "b.yaml"
              (boot ∅ 0) first.2 first.2 second.2
              Hinj eq_refl eq_refl (le_n _))
    as (Hfile1 & Hfile2 & _ & _ & _ & _ & Has & Hhs & _ & _).
  split; [exact Hfile1 |]. split; [exact Hfile2 |].
  split; [exact Has | exact Hhs].
Defined.

(** The healthy sample run does start the transport. *)
Lemma sample_run_begins :
  EvBegin ∈ trace (main (X := sample_imports) port_9000 ∅ healthy (boot sample_files 0)).2.
Proof. apply list_elem_of_In. vm_compute. tauto. Qed.

(** A valid configuration, a port on the command line and a store that cannot
    be opened. *)
Lemma store_init_failure_is_fatal_witness :
  let c := with_store_init (Raise (Error "SQLITE_CANTOPEN")) healthy in
  let r := main (X := sample_imports) port_9000 ∅ c (boot sample_files 0) in
  r.1 = Exit 1 ∧ EvBegin ∉ trace r.2.
Proof.
  intros c r.
  destruct (store_init_failure_is_fatal (X := sample_imports)
              port_9000 ∅ c sample_files 0 (Error "SQLITE_CANTOPEN") eq_refl)
    as (Hfatal & Hnobegin & _).
  split; [| exact Hnobegin].
  apply Hfatal. apply list_elem_of_In. vm_compute. tauto.
Defined.

(** C1 fails on the code. No port on the command line, and a configuration
    file that sets the port to 9005: [run] reports a missing port and [main]
    exits with status 1 without having read the file. *)
Theorem config_file_port_not_consulted :
  let r := main (X := sample_imports) no_opts ∅ healthy (boot sample_files 0) in
  sample_files !! "config.yaml" = Some sample_config_text ∧
  safeLoad (Imports := sample_imports) sample_config_text = Ok sample_config_doc ∧
  port (bridge (overlay_config empty_config sample_config_doc)) = JNum 9005 ∧
  r = (Exit 1, mkWorld sample_files 0 [fatal missing_port; EvExit 1] ∅).
Proof. repeat split. Qed.

(** C2 fails on the code. No port on the command line, and a configuration
    file holding a plain scalar: the error raised is the missing port, not
    the not-an-object one, and the file was not read at all. *)
Theorem port_checked_before_document_shape :
  let r := main (X := sample_imports) no_opts ∅ healthy (boot scalar_files 0) in
  scalar_files !! "config.yaml" = Some scalar_config_text ∧
  safeLoad (Imports := sample_imports) scalar_config_text = Ok (JStr scalar_config_text) ∧
  typeof (JStr scalar_config_text) ≠ "object" ∧
  r = (Exit 1, mkWorld scalar_files 0 [fatal missing_port; EvExit 1] ∅) ∧
  existsb is_read_file (trace r.2) = false.
Proof. repeat split. discriminate. Qed.

(** ** The timeline-event handler *)



(** ** The logger cache *)

(** What [logFunc] does with arguments it neither rejects nor drops. *)
Lemma logFunc_forwards (level module : string) (args : jsval) (w : World) :
  forallb plain_arg (normalize_args args) = true →
  existsb spam_arg (normalize_args args) = false →
  let tag := "bot-sdk" +:+ module in
  logFunc level module args w
  = (Ret (),
     match logMap w !! tag with
     | Some logger =>
         set_trace (trace w ++ [EvLog level (log_module logger)
                                  [JArr (normalize_args args)]]) w
     | None =>
         mkWorld (fs w) (uuid_next w)
           (trace w ++ [EvNewLog tag; EvLog level tag [JArr (normalize_args args)]])
           (<[tag := {| log_module := tag |}]> (logMap w))
     end).
Proof.
  intros Hplain Hclean tag.
  destruct (array_find_plain _ Hplain) as (found & Hfind & Htruthy).
  rewrite Hclean in Htruthy.
  destruct w as [f k t cache].
  unfold logFunc. fold tag. rewrite Hfind.
  cbv beta iota zeta delta
    [mbind M_bind mret M_ret throw emit log_call lift_res gets modify
     set_trace set_logMap fs uuid_next trace logMap fst snd].
  rewrite Htruthy.
  destruct (cache !! tag) as [logger |]; cbv beta iota.
  - reflexivity.
  - rewrite <- app_assoc. reflexivity.
Qed.

(** X2. One logger per module. Two calls for the same module, on arguments
    that are neither rejected nor dropped, the first finding no logger
    cached for that module: the logger is created by the first call only,
    both calls go to it, each at the level its method is routed to, and the
    cache gains that one entry. *)
Theorem logger_created_once
    (m1 m2 : LogServiceMethod) (module : string) (args1 args2 : jsval) (w : World) :
  forallb plain_arg (normalize_args args1) = true →
  existsb spam_arg (normalize_args args1) = false →
  forallb plain_arg (normalize_args args2) = true →
  existsb spam_arg (normalize_args args2) = false →
  logMap w !! ("bot-sdk" +:+ module) = None →
  let tag := "bot-sdk" +:+ module in
  let first := installed_logger m1 module args1 w in
  let second := installed_logger m2 module args2 first.2 in
  first.1 = Ret () ∧ second.1 = Ret () ∧
  trace second.2
  = trace w ++ [EvNewLog tag;
                EvLog (forwarded_level m1) tag [JArr (normalize_args args1)];
                EvLog (forwarded_level m2) tag [JArr (normalize_args args2)]] ∧
  logMap second.2 = <[tag := {| log_module := tag |}]> (logMap w) ∧
  fs second.2 = fs w ∧ uuid_next second.2 = uuid_next w.
Proof.
  intros Hplain1 Hclean1 Hplain2 Hclean2 Hfresh tag first second.
  assert (Hfirst : first = logFunc (forwarded_level m1) module args1 w)
    by (destruct m1; reflexivity).
  assert (Hsecond : second = logFunc (forwarded_level m2) module args2 first.2)
    by (destruct m2; reflexivity).
  rewrite Hsecond, Hfirst. subst tag.
  rewrite (logFunc_forwards _ _ _ w Hplain1 Hclean1).
  cbv zeta. rewrite Hfresh. cbn [fst snd].
  rewrite (logFunc_forwards _ _ _ _ Hplain2 Hclean2).
  cbv zeta. cbn [logMap]. rewrite lookup_insert_eq.
  cbn [fst snd trace set_trace fs uuid_next logMap log_module].
  rewrite <- app_assoc. repeat split.
Qed.

(** A warning, then a debug message, from the same module. *)
Lemma logger_created_once_witness :
  let first := installed_logger LWarn "Appservice" (JStr "slow request") (boot ∅ 0) in
  let second := installed_logger LDebug "Appservice" (JStr "request done") first.2 in
  trace second.2
  = [EvNewLog "bot-sdkAppservice";
     EvLog "warn" "bot-sdkAppservice" [JArr [JStr "slow request"]];
     EvLog "silly" "bot-sdkAppservice" [JArr [JStr "request done"]]].
Proof.
  intros first second.
  destruct (logger_created_once LWarn LDebug "Appservice"
              (JStr "slow request") (JStr "request done") (boot ∅ 0)
              eq_refl eq_refl eq_refl eq_refl (lookup_empty _))
    as (_ & _ & Htrace & _).
  exact Htrace.
Defined.

(** ** Further properties of [run] and [main] *)

Lemma all_by_scan (p : Event → bool) (tr : list Event) :
  forallb p tr = true → ∀ e, e ∈ tr → p e = true.
Proof.
  intros Hscan e Hin. apply list_elem_of_In in Hin.
  rewrite forallb_forall in Hscan. exact (Hscan e Hin).
Qed.

Lemma no_exit_by_scan (tr : list Event) :
  existsb is_exit tr = false → ∀ code, EvExit code ∉ tr.
Proof. intros Hscan code. apply (absent_by_scan is_exit); [reflexivity | exact Hscan]. Qed.

Lemma js_or_default_truthy (a b : jsval) :
  truthy b = true → truthy (js_or a b) = true.
Proof. intros Hb. unfold js_or. destruct (truthy a) eqn:Ha; assumption. Qed.

Section Startup.

Context {X : Imports}.

(** Decide, in program order, every test the run depends on. *)
Ltac case_run :=
  repeat
    (match goal with
     | |- context [match ?x with _ => _ end] =>
         lazymatch x with
         | context [match _ with _ => _ end] => fail
         | _ => destruct x eqn:?
         end
     end; cbv beta iota).

(** X3. The registration path and the run path exclude each other: with
    [--generate-registration] (and no [--help]) the process only looks at
    the destination, draws tokens, writes, logs and exits. It reads no file,
    needs no port, and constructs or starts nothing. *)
Theorem registration_path_skips_startup (opts : CliOpts) env c files n :
  opt_help opts = false →
  opt_generate_registration opts = true →
  ∀ e, e ∈ trace (main opts env c (boot files n)).2 → registration_only e = true.
Proof.
  intros Hhelp Hgen.
  unfold main, run, generateRegistration. rewrite Hhelp, Hgen.
  run_monad. case_run; apply all_by_scan; reflexivity.
Qed.

(** X4. Asking for a registration without a url (none given, or an empty
    one) at a free path is fatal: the url error is raised after the
    existence check, logged, and the process exits with 1. No token was
    drawn and nothing was written. *)
Theorem missing_url_is_fatal (opts : CliOpts) env c files n :
  opt_help opts = false →
  opt_generate_registration opts = true →
  truthy (str_val (opt_url opts)) = false →
  files !! str_or (opt_file opts) "discord-registration.yaml" = None →
  main opts env c (boot files n)
  = (Exit 1,
     mkWorld files n
       [EvExistsSync (str_or (opt_file opts) "discord-registration.yaml");
        fatal url_missing; EvExit 1] ∅).
Proof.
  intros Hhelp Hgen Hurl Hfree.
  unfold main, run, generateRegistration. rewrite Hhelp, Hgen, Hurl.
  run_monad. rewrite bool_decide_false by (rewrite Hfree; apply is_Some_None).
  reflexivity.
Qed.

(** X5. What [generateRegistration] does when given a non-empty url, called
    on any world: it draws exactly two tokens, first the as-token and then
    the hs-token, and attempts one write of the dumped registration to the
    destination, leaving the logger cache alone. If the file system accepts
    the write, the call returns, the destination holds the dump (replacing
    whatever was there) and every other file is as it was; if it refuses,
    the call raises the file system's error and no file has changed. *)
Theorem generateRegistration_effects
    (opts : CliOpts) (registrationPath : string) (w : World) (u : string) :
  opt_url opts = Some u →
  u ≠ EmptyString →
  let r := generateRegistration opts registrationPath w in
  let a := uuid_gen (uuid_next w) in
  let h := uuid_gen (S (uuid_next w)) in
  let text := safeDump (registration_object a h (JStr u)) in
  uuid_next r.2 = S (S (uuid_next w)) ∧
  trace r.2 = trace w ++ [EvUuid a; EvUuid h; EvWriteFile registrationPath text] ∧
  logMap r.2 = logMap w ∧
  (write_error registrationPath = None →
     r.1 = Ret () ∧
     fs r.2 !! registrationPath = Some text ∧
     ∀ other, other ≠ registrationPath → fs r.2 !! other = fs w !! other) ∧
  (∀ err, write_error registrationPath = Some err →
     r.1 = Throw err ∧ fs r.2 = fs w).
Proof.
  intros Hurl Hu r a h text. subst r a h text.
  assert (Htruthy : truthy (JStr u) = true).
  { simpl. apply negb_true_iff, String.eqb_neq, Hu. }
  destruct w as [f k t m].
  unfold generateRegistration. rewrite Hurl. cbn [str_val]. rewrite Htruthy.
  cbv beta iota zeta delta
    [mbind M_bind mret M_ret emit throw gets modify writeFileSync uuid negb
     set_fs set_uuid_next set_trace fs uuid_next trace logMap fst snd].
  destruct (write_error registrationPath) as [refusal |]; cbv beta iota;
    rewrite <- !app_assoc;
    (split; [reflexivity |]); (split; [reflexivity |]); (split; [reflexivity |]).
  - split; [intros Hnone; discriminate Hnone |].
    intros err [= <-]. split; reflexivity.
  - split; [| intros err Hsome; discriminate Hsome].
    intros _. split; [reflexivity |]. split.
    + apply lookup_insert_eq.
    + intros other Hother. apply lookup_insert_ne. congruence.
Qed.

(** X19. Generating a registration at a free path that the file system
    refuses to write is fatal, and only found out at the write: both tokens
    have been drawn, the refusal is logged by the outermost catch, the
    process exits with 1, and no file has been created or changed. *)
Theorem refused_write_is_fatal (opts : CliOpts) env c files n u err :
  opt_help opts = false →
  opt_generate_registration opts = true →
  opt_url opts = Some u →
  u ≠ EmptyString →
  files !! str_or (opt_file opts) "discord-registration.yaml" = None →
  write_error (str_or (opt_file opts) "discord-registration.yaml") = Some err →
  let path := str_or (opt_file opts) "discord-registration.yaml" in
  let a := uuid_gen n in
  let h := uuid_gen (S n) in
  main opts env c (boot files n)
  = (Exit 1,
     mkWorld files (S (S n))
       [EvExistsSync path; EvUuid a; EvUuid h;
        EvWriteFile path (safeDump (registration_object a h (JStr u)));
        fatal err; EvExit 1] ∅).
Proof.
  intros Hhelp Hgen Hurl Hu Hfresh Hwrite path a h. subst path a h.
  assert (Htruthy : truthy (JStr u) = true).
  { simpl. apply negb_true_iff, String.eqb_neq, Hu. }
  unfold main, run, generateRegistration.
  rewrite Hhelp, Hgen, Hurl. cbn [str_val]. rewrite Htruthy. run_monad.
  rewrite bool_decide_false by (rewrite Hfresh; apply is_Some_None).
  cbv beta iota. rewrite Hwrite. reflexivity.
Qed.

(** X6. How [main] can end. It never ends with an exception in flight: it
    returns, or exits with status 0 or 1. A run that returns has not called
    [process.exit]; a run that exits did so once, as its last act; and every
    exit with status 1 comes right after an error entry of the bridge's own
    logger. *)
Theorem main_exits_are_logged (opts : CliOpts) env c files n :
  let r := main opts env c (boot files n) in
  (r.1 = Ret () ∨ r.1 = Exit 0 ∨ r.1 = Exit 1) ∧
  (r.1 = Ret () → ∀ code, EvExit code ∉ trace r.2) ∧
  (∀ code, r.1 = Exit code →
     ∃ pre, trace r.2 = pre ++ [EvExit code] ∧ ∀ code', EvExit code' ∉ pre) ∧
  (r.1 = Exit 1 →
     ∃ pre parts, trace r.2 = pre ++ [EvLog "error" "DiscordAS" parts; EvExit 1]).
Proof.
  intros r. subst r.
  unfold main, run, generateRegistration.
  run_monad. case_run;
    (split; [first [left; reflexivity | right; left; reflexivity
                   | right; right; reflexivity] |];
     split; [intros Hret; first [discriminate Hret | apply no_exit_by_scan; reflexivity] |];
     split;
     [ intros code Hexit;
       first
         [ discriminate Hexit
         | injection Hexit as <-;
           match goal with
           | |- ∃ pre, ?tr = _ ∧ _ =>
               exists (take (length tr - 1)%nat tr);
               split; [reflexivity | apply no_exit_by_scan; reflexivity]
           end ]
     | intros Hexit;
       first
         [ discriminate Hexit
         | match goal with
           | |- ∃ pre parts, ?tr = _ =>
               exists (take (length tr - 2)%nat tr),
                      (log_parts (nth (length tr - 2)%nat tr EvPrintUsage));
               reflexivity
           end ] ]).
Qed.

(** X7. A non-zero port on the command line is the port the appservice is
    constructed with, whatever the configuration says. *)
Theorem cli_port_wins (opts : CliOpts) env c files n (p : Z) :
  opt_port opts = Some p →
  p ≠ 0 →
  ∀ a d h q reg,
    EvNewAppservice a d h q reg ∈ trace (main opts env c (boot files n)).2 →
    q = JNum p.
Proof.
  intros Hport Hp a d h q reg Hin.
  rewrite (appservice_port_predates_config opts env c files n a d h q reg Hin).
  rewrite Hport. unfold js_or. simpl.
  apply Z.eqb_neq in Hp. rewrite Hp. reflexivity.
Qed.

(** X8. The appservice is never constructed with a falsy bind address or a
    falsy port: a missing or empty bind address has been replaced by
    [0.0.0.0], and without a port the run has stopped before. *)
Theorem appservice_arguments_truthy (opts : CliOpts) env c files n :
  ∀ a d h p reg,
    EvNewAppservice a d h p reg ∈ trace (main opts env c (boot files n)).2 →
    truthy a = true ∧ truthy p = true.
Proof.
  intros a d h p reg.
  unfold main, run, generateRegistration.
  run_monad. case_run; intros Hin;
    repeat (apply elem_of_cons in Hin as [Hin | Hin];
            [first
               [ discriminate Hin
               | injection Hin as -> -> -> -> ->;
                 split; [apply js_or_default_truthy; reflexivity |];
                 match goal with
                 | H : negb (truthy ?q) = false |- truthy ?q = true =>
                     apply negb_false_iff in H; exact H
                 end ] |]);
    apply elem_of_nil in Hin; destruct Hin.
Qed.

(** X9. With a port resolved, a configuration file that does not exist is
    fatal: the read fails, the failure is logged and the process exits with
    1, having done nothing else. *)
Theorem missing_config_file_is_fatal (opts : CliOpts) env c files n :
  opt_help opts = false →
  opt_generate_registration opts = false →
  truthy (js_or (num_val (opt_port opts)) (port (bridge new_DiscordBridgeConfig)))
    = true →
  files !! str_or (opt_config opts) "config.yaml" = None →
  let configPath := str_or (opt_config opts) "config.yaml" in
  main opts env c (boot files n)
  = (Exit 1,
     mkWorld files n [EvReadFile configPath; fatal (enoent configPath); EvExit 1] ∅).
Proof.
  intros Hhelp Hgen Hport Hfile configPath. subst configPath.
  unfold main, run. rewrite Hhelp, Hgen. run_monad.
  rewrite Hport. cbn [negb]. cbv beta iota.
  rewrite Hfile. reflexivity.
Qed.

(** X10. With a port resolved, a configuration file the loader rejects is
    fatal: the loader's error is logged and the process exits with 1, before
    anything is applied or constructed. *)
Theorem unparsable_config_is_fatal (opts : CliOpts) env c files n text err :
  opt_help opts = false →
  opt_generate_registration opts = false →
  truthy (js_or (num_val (opt_port opts)) (port (bridge new_DiscordBridgeConfig)))
    = true →
  files !! str_or (opt_config opts) "config.yaml" = Some text →
  safeLoad text = Raise err →
  main opts env c (boot files n)
  = (Exit 1,
     mkWorld files n
       [EvReadFile (str_or (opt_config opts) "config.yaml"); fatal err; EvExit 1] ∅).
Proof.
  intros Hhelp Hgen Hport Hfile Hload.
  unfold main, run. rewrite Hhelp, Hgen. run_monad.
  rewrite Hport. cbn [negb]. cbv beta iota.
  rewrite Hfile. cbv beta iota. rewrite Hload. reflexivity.
Qed.

(** X11. With a valid configuration, a registration file that does not
    exist is fatal, and this is found out before the log multiplexer is
    installed and before the store or the appservice are constructed. *)
Theorem missing_registration_file_is_fatal
    (opts : CliOpts) env c files n text doc :
  opt_help opts = false →
  opt_generate_registration opts = false →
  truthy (js_or (num_val (opt_port opts)) (port (bridge new_DiscordBridgeConfig)))
    = true →
  files !! str_or (opt_config opts) "config.yaml" = Some text →
  safeLoad text = Ok doc →
  typeof doc = "object" →
  let config := applyEnvironmentOverrides (applyConfig new_DiscordBridgeConfig doc) env in
  let registrationPath := str_or (opt_file opts) "discord-registration.yaml" in
  truthy (js_or (roomStorePath (database config)) (userStorePath (database config)))
    = false →
  files !! registrationPath = None →
  main opts env c (boot files n)
  = (Exit 1,
     mkWorld files n
       [EvReadFile (str_or (opt_config opts) "config.yaml");
        EvLogConfigure (logging config);
        EvReadFile registrationPath;
        fatal (enoent registrationPath);
        EvExit 1] ∅).
Proof.
  intros Hhelp Hgen Hport Hfile Hload Htype config registrationPath Hlegacy Hreg.
  subst config registrationPath.
  unfold main, run. rewrite Hhelp, Hgen. run_monad.
  rewrite Hport. cbn [negb]. cbv beta iota.
  rewrite Hfile. cbv beta iota. rewrite Hload. cbv beta iota.
  rewrite Htype. cbn [String.eqb Ascii.eqb Bool.eqb negb]. cbv beta iota.
  rewrite Hlegacy. cbv beta iota. rewrite Hreg. reflexivity.
Qed.

(** X12. Each stage is gated on the one before it. In any run: the bridge
    logic is constructed only if [store.init()] returned; the transport is
    started only if, besides, the third-party binding returned; the bridge
    logic is initialised only if the transport start returned, run only if
    its initialisation returned, and the success line is written only if
    its run returned. *)
Theorem stages_are_gated (opts : CliOpts) env c files n :
  let tr := trace (main opts env c (boot files n)).2 in
  (EvNewDiscordBot ∈ tr → store_init c = Ok ()) ∧
  (EvBegin ∈ tr → store_init c = Ok () ∧ bindThirdparty c = Ok ()) ∧
  (EvBotInit ∈ tr → appservice_begin c = Ok ()) ∧
  (EvBotRun ∈ tr → discordbot_init c = Ok ()) ∧
  (EvLog "info" "DiscordAS" [JStr "Discordbot started successfully"] ∈ tr →
     discordbot_run c = Ok ()).
Proof.
  intros tr. subst tr.
  unfold main, run, generateRegistration.
  run_monad. case_run;
    repeat match goal with u : unit |- _ => destruct u end;
    (split; [| split; [| split; [| split]]]); intros Hin;
    first
      [ reflexivity
      | split; reflexivity
      | exfalso; revert Hin;
        first
          [ apply (absent_by_scan is_new_bot); reflexivity
          | apply (absent_by_scan is_begin); reflexivity
          | apply (absent_by_scan is_bot_init); reflexivity
          | apply (absent_by_scan is_bot_run); reflexivity
          | apply (absent_by_scan is_success_line); reflexivity ] ].
Qed.

(** X13. When the third-party binding raises: a run that gets as far as
    calling it logs the failure at the outermost catch and exits with 1, and
    no run starts the transport. *)
Theorem bindThirdparty_failure_is_fatal (opts : CliOpts) env c files n err :
  bindThirdparty c = Raise err →
  let r := main opts env c (boot files n) in
  (EvBindThirdparty ∈ trace r.2 →
     r.1 = Exit 1 ∧
     ∃ pre, trace r.2 = pre ++ [EvBindThirdparty; fatal err; EvExit 1]) ∧
  (EvBegin ∉ trace r.2).
Proof.
  intros Hbind r. subst r.
  unfold main, run, generateRegistration, fatal.
  run_monad. rewrite Hbind. cbv beta iota.
  case_run;
    (split;
     [ intros Hreached;
       first
         [ exfalso; revert Hreached;
           apply (absent_by_scan is_bind_thirdparty); reflexivity
         | split; [reflexivity |];
           match goal with
           | |- ∃ pre, ?tr = _ =>
               exists (take (length tr - 3)%nat tr); reflexivity
           end ]
     | apply (absent_by_scan is_begin); reflexivity ]).
Qed.

(** X14. When [appservice.begin()] raises: a run that gets as far as calling
    it logs the failure at the outermost catch and exits with 1; no run
    writes the started-listening line or initialises the bridge logic. *)
Theorem begin_failure_is_fatal (opts : CliOpts) env c files n err :
  appservice_begin c = Raise err →
  let r := main opts env c (boot files n) in
  (EvBegin ∈ trace r.2 →
     r.1 = Exit 1 ∧
     ∃ pre, trace r.2 = pre ++ [EvBegin; fatal err; EvExit 1]) ∧
  (∀ e, e ∈ trace r.2 → is_started_listening e = false) ∧
  (EvBotInit ∉ trace r.2).
Proof.
  intros Hbegin r. subst r.
  unfold main, run, generateRegistration, fatal.
  run_monad. rewrite Hbegin. cbv beta iota.
  case_run;
    (split;
     [ intros Hreached;
       first
         [ exfalso; revert Hreached;
           apply (absent_by_scan is_begin); reflexivity
         | split; [reflexivity |];
           match goal with
           | |- ∃ pre, ?tr = _ =>
               exists (take (length tr - 3)%nat tr); reflexivity
           end ]
     | split;
       [ apply none_by_scan; reflexivity
       | apply (absent_by_scan is_bot_init); reflexivity ] ]).
Qed.

(** X15. When the bridge logic fails to initialise, or initialises and then
    fails to run: a run that gets as far as initialising it logs the raised
    value, then the fixed failure message, and exits with 1, these being the
    last things it does; and no run writes the success line. *)
Theorem bridge_startup_failure_is_fatal (opts : CliOpts) env c files n err :
  discordbot_init c = Raise err ∨
  (discordbot_init c = Ok () ∧ discordbot_run c = Raise err) →
  let r := main opts env c (boot files n) in
  (EvBotInit ∈ trace r.2 →
     r.1 = Exit 1 ∧ ∃ pre, trace r.2 = pre ++ startup_failure err) ∧
  (EvLog "info" "DiscordAS" [JStr "Discordbot started successfully"] ∉ trace r.2).
Proof.
  intros Hfail r. subst r.
  unfold main, run, generateRegistration, startup_failure.
  run_monad.
  destruct Hfail as [Hinit | [Hinit Hrun]];
    [rewrite Hinit | rewrite Hinit, Hrun]; cbv beta iota;
    case_run;
    (split;
     [ intros Hreached;
       first
         [ exfalso; revert Hreached;
           apply (absent_by_scan is_bot_init); reflexivity
         | split; [reflexivity |];
           match goal with
           | |- ∃ pre, ?tr = _ =>
               exists (take (length tr - 3)%nat tr); reflexivity
           end ]
     | apply (absent_by_scan is_success_line); reflexivity ]).
Qed.

(** X16. The start-up sequence. With a port resolved, a configuration that
    loads as an object and carries no legacy store path, a registration that
    loads, and collaborators that all succeed, [main] returns after doing
    exactly this, in this order: read and apply the configuration, configure
    logging, read the registration, install the log multiplexer, construct
    the store and then the appservice (with the resolved port and the bind
    address defaulted), attach metrics if enabled, initialise the store,
    construct the bridge logic, subscribe to alias queries and to timeline
    events, bind the third-party network, start the transport and report
    the port, initialise and run the bridge logic and report success. *)
Theorem healthy_startup_sequence
    (opts : CliOpts) env c files n text doc regtext registration :
  opt_help opts = false →
  opt_generate_registration opts = false →
  let port := js_or (num_val (opt_port opts)) (port (bridge new_DiscordBridgeConfig)) in
  let configPath := str_or (opt_config opts) "config.yaml" in
  let registrationPath := str_or (opt_file opts) "discord-registration.yaml" in
  let config := applyEnvironmentOverrides (applyConfig new_DiscordBridgeConfig doc) env in
  truthy port = true →
  files !! configPath = Some text →
  safeLoad text = Ok doc →
  typeof doc = "object" →
  truthy (js_or (roomStorePath (database config)) (userStorePath (database config)))
    = false →
  files !! registrationPath = Some regtext →
  safeLoad regtext = Ok registration →
  store_init c = Ok () →
  bindThirdparty c = Ok () →
  appservice_begin c = Ok () →
  discordbot_init c = Ok () →
  discordbot_run c = Ok () →
  main opts env c (boot files n)
  = (Ret (),
     mkWorld files n
       ([ EvReadFile configPath;
          EvLogConfigure (logging config);
          EvReadFile registrationPath;
          EvSetLogger;
          EvNewStore;
          EvNewAppservice (js_or (bindAddress (bridge config)) (JStr "0.0.0.0"))
                          (domain (bridge config)) (homeserverUrl (bridge config))
                          port registration ]
        ++ metrics_stage config
        ++ [ EvStoreInit;
             EvNewDiscordBot;
             EvOn "query.room";
             EvOn "room.event";
             EvBindThirdparty;
             EvBegin;
             started_listening port;
             EvBotInit;
             EvBotRun;
             EvLog "info" "DiscordAS" [JStr "Discordbot started successfully"] ])
       ∅).
Proof.
  intros Hhelp Hgen port0 configPath registrationPath config
         Hport Hfile Hload Htype Hlegacy Hreg Hregload
         Hstore Hbind Hbegin Hinit Hrun.
  subst port0 configPath registrationPath config.
  unfold main, run, metrics_stage, started_listening.
  rewrite Hhelp, Hgen. run_monad.
  rewrite Hport. cbn [negb]. cbv beta iota.
  rewrite Hfile. cbv beta iota. rewrite Hload. cbv beta iota.
  rewrite Htype. cbn [String.eqb Ascii.eqb Bool.eqb negb]. cbv beta iota.
  rewrite Hlegacy. cbv beta iota.
  rewrite Hreg. cbv beta iota. rewrite Hregload. cbv beta iota.
  rewrite Hstore, Hbind, Hbegin, Hinit, Hrun.
  destruct (truthy (enable (metrics
              (applyEnvironmentOverrides (applyConfig new_DiscordBridgeConfig doc) env))));
    reflexivity.
Qed.

End Startup.

(** ** Concrete runs for the properties above *)

(** A registration is generated into an empty directory. *)
Lemma registration_path_skips_startup_witness :
  EvExistsSync "reg.yaml"
    ∈ trace (main (X := sample_imports) generate_opts ∅ healthy (boot ∅ 0)).2 ∧
  registration_only (EvExistsSync "reg.yaml") = true.
Proof.
  assert (Hin : EvExistsSync "reg.yaml"
                  ∈ trace (main (X := sample_imports) generate_opts ∅ healthy
                             (boot ∅ 0)).2)
    by (apply list_elem_of_In; vm_compute; tauto).
  split; [exact Hin |].
  exact (registration_path_skips_startup (X := sample_imports)
           generate_opts ∅ healthy ∅ 0 eq_refl eq_refl _ Hin).
Defined.

(** [--generate-registration --file reg.yaml] in an empty directory. *)
Lemma missing_url_is_fatal_witness :
  main (X := sample_imports) generate_without_url ∅ healthy (boot ∅ 0)
  = (Exit 1, mkWorld ∅ 0 [EvExistsSync "reg.yaml"; fatal url_missing; EvExit 1] ∅).
Proof.
  exact (missing_url_is_fatal (X := sample_imports)
           generate_without_url ∅ healthy ∅ 0 eq_refl eq_refl eq_refl (lookup_empty _)).
Defined.

(** The generator called on a path that is taken: the file is replaced. *)
Lemma generateRegistration_effects_witness :
  let r := generateRegistration (X := sample_imports) generate_opts "reg.yaml"
             (boot occupied_files 7) in
  r.1 = Ret () ∧
  uuid_next r.2 = 9%nat ∧
  fs r.2 !! "reg.yaml"
  = Some "as_token: 7, hs_token: 8, url: https://bridge.example:9000".
Proof.
  intros r.
  assert (Hurl : "https://bridge.example:9000" ≠ EmptyString) by discriminate.
  destruct (generateRegistration_effects (X := sample_imports)
              generate_opts "reg.yaml" (boot occupied_files 7)
              "https://bridge.example:9000" eq_refl Hurl)
    as (Hdraws & _ & _ & Haccepted & _).
  destruct (Haccepted eq_refl) as (Hret & Hfile & _).
  split; [exact Hret | split; [exact Hdraws | exact Hfile]].
Defined.

(** A store that cannot be opened: exit 1, right after an error entry. *)
Lemma main_exits_are_logged_witness :
  let c := with_store_init (Raise (Error "SQLITE_CANTOPEN")) healthy in
  let r := main (X := sample_imports) port_9000 ∅ c (boot sample_files 0) in
  ∃ pre parts, trace r.2 = pre ++ [EvLog "error" "DiscordAS" parts; EvExit 1].
Proof.
  intros c r.
  destruct (main_exits_are_logged (X := sample_imports) port_9000 ∅ c sample_files 0)
    as (_ & _ & _ & Hlogged).
  apply Hlogged. reflexivity.
Defined.

(** Port 9000 on the command line, 9005 in the configuration file. *)
Lemma cli_port_wins_witness :
  ∃ q, EvNewAppservice (JStr "0.0.0.0") (JStr "localhost")
         (JStr "http://localhost:8008") q sample_registration_doc
         ∈ trace (main (X := sample_imports) port_9000 ∅ healthy (boot sample_files 0)).2
       ∧ q = JNum 9000.
Proof.
  exists (JNum 9000).
  assert (Hin : EvNewAppservice (JStr "0.0.0.0") (JStr "localhost")
                  (JStr "http://localhost:8008") (JNum 9000) sample_registration_doc
                  ∈ trace (main (X := sample_imports) port_9000 ∅ healthy
                             (boot sample_files 0)).2)
    by (apply list_elem_of_In; vm_compute; tauto).
  assert (Hport : (9000 ≠ 0)%Z) by discriminate.
  split; [exact Hin |].
  exact (cli_port_wins (X := sample_imports)
           port_9000 ∅ healthy sample_files 0 9000 eq_refl Hport _ _ _ _ _ Hin).
Defined.

(** The sample configuration sets no bind address. *)
Lemma appservice_arguments_truthy_witness :
  truthy (JStr "0.0.0.0") = true ∧ truthy (JNum 9000) = true.
Proof.
  apply (appservice_arguments_truthy (X := sample_imports)
           port_9000 ∅ healthy sample_files 0
           (JStr "0.0.0.0") (JStr "localhost") (JStr "http://localhost:8008")
           (JNum 9000) sample_registration_doc).
  apply list_elem_of_In. vm_compute. tauto.
Defined.

(** A configuration file holding a plain scalar, with a port given. *)
Lemma non_object_config_rejected_witness :
  run (X := sample_imports) port_9000 ∅ healthy (boot scalar_files 0)
  = (Throw not_an_object, mkWorld scalar_files 0 [EvReadFile "config.yaml"] ∅).
Proof.
  assert (Hfile : scalar_files !! str_or (opt_config port_9000) "config.yaml"
                  = Some scalar_config_text) by reflexivity.
  assert (Htype : typeof (JStr scalar_config_text) ≠ "object") by discriminate.
  exact (non_object_config_rejected (X := sample_imports)
           port_9000 ∅ healthy scalar_files 0 scalar_config_text
           (JStr scalar_config_text) eq_refl eq_refl eq_refl Hfile eq_refl Htype).
Defined.

(** A configuration file that still names a room store. *)
Lemma legacy_config_rejected_witness :
  run (X := legacy_imports) port_9000 ∅ healthy (boot legacy_files 0)
  = (Throw legacy_config,
     mkWorld legacy_files 0
       [EvReadFile "config.yaml"; EvLogConfigure JUndefined;
        EvLog "error" "DiscordAS" [JStr legacy_message]] ∅).
Proof.
  assert (Hfile : legacy_files !! str_or (opt_config port_9000) "config.yaml"
                  = Some legacy_config_text) by reflexivity.
  exact (legacy_config_rejected (X := legacy_imports)
           port_9000 ∅ healthy legacy_files 0 legacy_config_text legacy_config_doc
           eq_refl eq_refl eq_refl Hfile eq_refl eq_refl eq_refl).
Defined.

(** An empty directory, with a port given. *)
Lemma missing_config_file_is_fatal_witness :
  main (X := sample_imports) port_9000 ∅ healthy (boot ∅ 0)
  = (Exit 1,
     mkWorld ∅ 0 [EvReadFile "config.yaml"; fatal (enoent "config.yaml"); EvExit 1] ∅).
Proof.
  exact (missing_config_file_is_fatal (X := sample_imports)
           port_9000 ∅ healthy ∅ 0 eq_refl eq_refl eq_refl (lookup_empty _)).
Defined.

(** A configuration file the loader cannot parse. *)
Lemma unparsable_config_is_fatal_witness :
  main (X := sample_imports) port_9000 ∅ healthy (boot broken_files 0)
  = (Exit 1,
     mkWorld broken_files 0
       [EvReadFile "config.yaml";
        fatal (Error "YAMLException: cannot parse document"); EvExit 1] ∅).
Proof.
  assert (Hfile : broken_files !! str_or (opt_config port_9000) "config.yaml"
                  = Some broken_config_text) by reflexivity.
  exact (unparsable_config_is_fatal (X := sample_imports)
           port_9000 ∅ healthy broken_files 0 broken_config_text
           (Error "YAMLException: cannot parse document")
           eq_refl eq_refl eq_refl Hfile eq_refl).
Defined.

(** A directory with the configuration but no registration. *)
Lemma missing_registration_file_is_fatal_witness :
  main (X := sample_imports) port_9000 ∅ healthy (boot config_only_files 0)
  = (Exit 1,
     mkWorld config_only_files 0
       [EvReadFile "config.yaml"; EvLogConfigure JUndefined;
        EvReadFile "discord-registration.yaml";
        fatal (enoent "discord-registration.yaml"); EvExit 1] ∅).
Proof.
  assert (Hfile : config_only_files !! str_or (opt_config port_9000) "config.yaml"
                  = Some sample_config_text) by reflexivity.
  assert (Hreg : config_only_files
                   !! str_or (opt_file port_9000) "discord-registration.yaml"
                 = None) by reflexivity.
  exact (missing_registration_file_is_fatal (X := sample_imports)
           port_9000 ∅ healthy config_only_files 0 sample_config_text sample_config_doc
           eq_refl eq_refl eq_refl Hfile eq_refl eq_refl eq_refl Hreg).
Defined.

(** The healthy sample run constructs the bridge logic. *)
Lemma stages_are_gated_witness :
  EvNewDiscordBot
    ∈ trace (main (X := sample_imports) port_9000 ∅ healthy (boot sample_files 0)).2 ∧
  store_init healthy = Ok ().
Proof.
  assert (Hin : EvNewDiscordBot
                  ∈ trace (main (X := sample_imports) port_9000 ∅ healthy
                             (boot sample_files 0)).2)
    by (apply list_elem_of_In; vm_compute; tauto).
  split; [exact Hin |].
  destruct (stages_are_gated (X := sample_imports) port_9000 ∅ healthy sample_files 0)
    as (Hbot & _).
  exact (Hbot Hin).
Defined.

(** The third-party binding fails. *)
Lemma bindThirdparty_failure_is_fatal_witness :
  let c := with_bindThirdparty (Raise (Error "no protocol")) healthy in
  let r := main (X := sample_imports) port_9000 ∅ c (boot sample_files 0) in
  r.1 = Exit 1 ∧ EvBegin ∉ trace r.2.
Proof.
  intros c r.
  destruct (bindThirdparty_failure_is_fatal (X := sample_imports)
              port_9000 ∅ c sample_files 0 (Error "no protocol") eq_refl)
    as (Hfatal & Hnobegin).
  split; [| exact Hnobegin].
  apply Hfatal. apply list_elem_of_In. vm_compute. tauto.
Defined.

(** The port is in use. *)
Lemma begin_failure_is_fatal_witness :
  let c := with_appservice_begin (Raise (Error "EADDRINUSE")) healthy in
  let r := main (X := sample_imports) port_9000 ∅ c (boot sample_files 0) in
  r.1 = Exit 1 ∧ EvBotInit ∉ trace r.2.
Proof.
  intros c r.
  destruct (begin_failure_is_fatal (X := sample_imports)
              port_9000 ∅ c sample_files 0 (Error "EADDRINUSE") eq_refl)
    as (Hfatal & _ & Hnoinit).
  split; [| exact Hnoinit].
  apply Hfatal. apply list_elem_of_In. vm_compute. tauto.
Defined.

(** The bridge logic initialises but cannot log in. *)
Lemma bridge_startup_failure_is_fatal_witness :
  let c := with_discordbot_run (Raise (Error "bad token")) healthy in
  let r := main (X := sample_imports) port_9000 ∅ c (boot sample_files 0) in
  r.1 = Exit 1 ∧ ∃ pre, trace r.2 = pre ++ startup_failure (Error "bad token").
Proof.
  intros c r.
  destruct (bridge_startup_failure_is_fatal (X := sample_imports)
              port_9000 ∅ c sample_files 0 (Error "bad token")
              (or_intror (conj eq_refl eq_refl)))
    as (Hfatal & _).
  apply Hfatal. apply list_elem_of_In. vm_compute. tauto.
Defined.

(** The healthy sample run, from start to the success line. *)
Lemma healthy_startup_sequence_witness :
  (main (X := sample_imports) port_9000 ∅ healthy (boot sample_files 0)).1 = Ret () ∧
  length (trace (main (X := sample_imports) port_9000 ∅ healthy
                   (boot sample_files 0)).2) = 16%nat.
Proof.
  assert (Hfile : sample_files !! str_or (opt_config port_9000) "config.yaml"
                  = Some sample_config_text) by reflexivity.
  assert (Hreg : sample_files !! str_or (opt_file port_9000) "discord-registration.yaml"
                 = Some sample_registration_text) by reflexivity.
  rewrite (healthy_startup_sequence (X := sample_imports)
             port_9000 ∅ healthy sample_files 0
             sample_config_text sample_config_doc
             sample_registration_text sample_registration_doc
             eq_refl eq_refl eq_refl Hfile eq_refl eq_refl eq_refl Hreg eq_refl
             eq_refl eq_refl eq_refl eq_refl eq_refl).
  split; reflexivity.
Defined.

(** The directory [nodir] does not exist. *)
Lemma refused_write_is_fatal_witness :
  let r := main (X := sample_imports) generate_into_nodir ∅ healthy (boot ∅ 0) in
  r.1 = Exit 1 ∧ uuid_next r.2 = 2%nat ∧ fs r.2 = ∅.
Proof.
  intros r.
  assert (Hurl : "https://bridge.example:9000" ≠ EmptyString) by discriminate.
  pose proof (refused_write_is_fatal (X := sample_imports)
                generate_into_nodir ∅ healthy ∅ 0 "https://bridge.example:9000"
                (Error "ENOENT: no such file or directory, open 'nodir/reg.yaml'")
                eq_refl eq_refl eq_refl Hurl (lookup_empty _) eq_refl) as Hrun.
  subst r. rewrite Hrun. repeat split.
Defined.

(** How numbers print: a port as its digits; from 2^53 on the shortest
    digits of the nearest Number, padded with zeros up to 21 integer digits
    and in exponent form beyond. *)
Lemma number_to_string_samples :
  js_to_string (JNum 9000) = "9000" ∧
  js_to_string (JNum (2 ^ 53 + 1)) = "9007199254740992" ∧
  js_to_string (JNum (2 ^ 64)) = "18446744073709552000" ∧
  js_to_string (JNum (10 ^ 21)) = "1e+21" ∧
  js_to_string (JNum (2 ^ 70)) = "1.1805916207174113e+21" ∧
  js_to_string (JNum (- 10 ^ 22)) = "-1e+22" ∧
  started_listening (JNum (10 ^ 21))
  = EvLog "info" "DiscordAS" [JStr "Started listening on port 1e+21"].
Proof. vm_compute. repeat split. Qed.
